(** * pyrasterframes.types: the Python side of the RasterFrames bridge

    A shallow embedding of [pyrasterframes/types.py]: the cell-type
    registry ([GTCellType]), the tile value ([Tile]), the tile codec
    ([TileUDT]), the remote-source codec ([RasterSourceUDT]) and the frame
    facade ([RasterFrame]).

    Python values are an inductive type, exceptions are the left side of a
    sum, and everything that crosses the py4j gateway runs in a small
    state-and-error monad whose state is the process (the active Spark
    context and the log of calls sent to the JVM).  numpy, the JVM and the
    builtins [json.loads] and [str] are external collaborators: they are
    the fields of type classes.  The semantics is that of Python 3. *)

From Stdlib Require Import String Ascii List ZArith Lia Bool Arith.
From Stdlib.Strings Require Import Byte.
From Equations Require Import Equations.
Import ListNotations.
Open Scope string_scope.

Set Implicit Arguments.

(** ** Exceptions and results *)

Inductive exn : Type :=
| AttributeError (attr : string)   (* obj.attr on an object without attr *)
| IndexError                       (* sequence index out of range *)
| TypeError                        (* operation not supported by the operand *)
| ValueError                       (* right type, unacceptable value *)
| PyException (msg : string)       (* raise Exception(msg) *)
| NoActiveContext                  (* gateway used with no engine context *)
| RemoteCallError (msg : string).  (* the call raised on the JVM side *)

(** The result of running a Python expression: it raises or it returns. *)
Definition result (A : Type) : Type := (exn + A)%type.
Definition Raise {A} (e : exn) : result A := inl e.
Definition Return {A} (a : A) : result A := inr a.

Definition rbind {A B} (r : result A) (k : A -> result B) : result B :=
  match r with
  | inl e => inl e
  | inr a => k a
  end.

Declare Scope result_scope.
Delimit Scope result_scope with res.
Notation "x <- r ;; k" := (rbind r (fun x => k))
  (at level 61, r at next level, right associativity) : result_scope.

(** ** Python values *)

#[warnings="-register-all"]
Inductive pyval : Type :=
| PyNone
| PyBool (b : bool)
| PyInt (z : Z)
| PyFloat (bits : Z)                   (* a double, by its IEEE-754 bits *)
| PyStr (s : string)
| PyBytes (b : list byte)              (* bytes and bytearray alike *)
| PyList (l : list pyval)              (* list, tuple, py4j JavaList *)
| PyRow (fields : list (string * pyval))  (* pyspark.sql.Row with __fields__ *)
| PyJava (ref : nat)                   (* py4j JavaObject *)
| PyJavaMember (target : pyval) (name : string)  (* py4j JavaMember *)
| PyColumn (jc : pyval)                (* pyspark.sql.Column(jc) *)
| PyCellType (cell_type_name : string) (* an instance of GTCellType *).

(** [bool(v)], as the [and] operator tests it. *)
Definition truthy (v : pyval) : bool :=
  match v with
  | PyNone => false
  | PyBool b => b
  | PyInt z => negb (Z.eqb z 0)
  | PyFloat bits => negb (Z.eqb (Z.land bits (Z.ones 63)) 0)
  | PyStr s => negb (String.eqb s "")
  | PyBytes b => negb (Nat.eqb (length b) 0)
  | PyList l => negb (Nat.eqb (length l) 0)
  | PyRow fs => negb (Nat.eqb (length fs) 0)
  | PyJava _ | PyJavaMember _ _ | PyColumn _ | PyCellType _ => true
  end.

(** [a and b()]: the left operand when it is falsy, else the right one. *)
Definition py_and (a : pyval) (b : pyval -> pyval) : pyval :=
  if truthy a then b a else a.

(** [obj.name] where the attribute is held in the process, for the names
    this module reads (none is a method, or an attribute every object
    has).  A Row has its named fields, and a missing name or one that
    starts with two underscores raises [AttributeError]; a JavaObject
    answers any name but [__call__] with a JavaMember, which py4j makes
    without asking the JVM; a GTCellType has its [cell_type_name]; a
    JavaMember and the built-in values have none of these names.  The
    attributes of a Column are not held in the process: see [getattr]. *)
Fixpoint lookup_field (name : string) (fs : list (string * pyval)) : option pyval :=
  match fs with
  | [] => None
  | (n, v) :: fs' => if String.eqb n name then Some v else lookup_field name fs'
  end.

Definition py_getattr (v : pyval) (name : string) : result pyval :=
  match v with
  | PyRow fs =>
      if prefix "__" name then Raise (AttributeError name)
      else match lookup_field name fs with
           | Some x => Return x
           | None => Raise (AttributeError name)
           end
  | PyJava _ =>
      if String.eqb name "__call__" then Raise (AttributeError name)
      else Return (PyJavaMember v name)
  | PyCellType cell_type_name =>
      if String.eqb name "cell_type_name" then Return (PyStr cell_type_name)
      else Raise (AttributeError name)
  | _ => Raise (AttributeError name)
  end.

(** [obj[i]] for a non-negative literal index. *)
Definition py_getitem (v : pyval) (i : nat) : result pyval :=
  match v with
  | PyList l =>
      match nth_error l i with Some x => Return x | None => Raise IndexError end
  | PyRow fs =>
      match nth_error fs i with Some x => Return (snd x) | None => Raise IndexError end
  | PyBytes b =>
      match nth_error b i with
      | Some x => Return (PyInt (Z.of_N (Byte.to_N x)))
      | None => Raise IndexError
      end
  | PyStr s =>
      match String.get i s with
      | Some c => Return (PyStr (String c ""))
      | None => Raise IndexError
      end
  | _ => Raise TypeError
  end.

(** One element of [bytes(iterable)]: an integer in [range(256)]. *)
Definition byte_of_pyval (v : pyval) : result byte :=
  match v with
  | PyInt z =>
      if (0 <=? z)%Z && (z <? 256)%Z then
        match Byte.of_N (Z.to_N z) with
        | Some b => Return b
        | None => Raise ValueError
        end
      else Raise ValueError
  | PyBool b => Return (if b then x01 else x00)
  | _ => Raise TypeError
  end.

Fixpoint bytes_of_pyvals (l : list pyval) : result (list byte) :=
  match l with
  | [] => Return []
  | v :: l' =>
      (b <- byte_of_pyval v ;;
       bs <- bytes_of_pyvals l' ;;
       Return (b :: bs))%res
  end.

(** [bytes(v)] and [bytearray(v)] (they accept the same arguments): a copy
    of a bytes-like object, the bytes of an iterable of small integers, or
    [n] zero bytes for an integer [n]. *)
Definition py_bytes (v : pyval) : result (list byte) :=
  match v with
  | PyBytes b => Return b
  | PyList l => bytes_of_pyvals l
  | PyRow fs => bytes_of_pyvals (map snd fs)
  | PyInt z => if (z <? 0)%Z then Raise ValueError else Return (repeat x00 (Z.to_nat z))
  | PyBool b => Return (repeat x00 (if b then 1 else 0))
  | _ => Raise TypeError
  end.

(** [list(v)]. *)
Definition py_list (v : pyval) : result (list pyval) :=
  match v with
  | PyList l => Return l
  | PyRow fs => Return (map snd fs)
  | PyBytes b => Return (map (fun x => PyInt (Z.of_N (Byte.to_N x))) b)
  | PyStr s => Return (map (fun c => PyStr (String c "")) (list_ascii_of_string s))
  | _ => Raise TypeError
  end.

(** ** The [str] methods the module uses *)

(** [s.endswith(suffix)]. *)
Definition endswith (s suffix : string) : bool :=
  let n := String.length s in
  let m := String.length suffix in
  (m <=? n)%nat && String.eqb (substring (n - m) m s) suffix.

(** [s[:-k]] for a positive literal [k]. *)
Definition drop_last (k : nat) (s : string) : string :=
  substring 0 (String.length s - k) s.

(** [sub in s]: [sub] occurs in [s] at some position. *)
Fixpoint py_in (sub s : string) : bool :=
  prefix sub s ||
  match s with
  | EmptyString => false
  | String _ s' => py_in sub s'
  end.

(** ** numpy *)

(** The numeric element types of numpy. *)
Inductive dtype : Type :=
| np_bool
| np_int8 | np_int16 | np_int32 | np_int64
| np_uint8 | np_uint16 | np_uint32 | np_uint64
| np_float16 | np_float32 | np_float64.

(** [str(dtype)], the canonical name. *)
Definition dtype_str (d : dtype) : string :=
  match d with
  | np_bool => "bool"
  | np_int8 => "int8" | np_int16 => "int16"
  | np_int32 => "int32" | np_int64 => "int64"
  | np_uint8 => "uint8" | np_uint16 => "uint16"
  | np_uint32 => "uint32" | np_uint64 => "uint64"
  | np_float16 => "float16" | np_float32 => "float32" | np_float64 => "float64"
  end.

(** An n-dimensional array: its element type, its shape and its elements
    in C (row-major) order, each as the Python scalar [tolist] gives. *)
Record ndarray : Type := mk_ndarray {
  nd_dtype : dtype;
  nd_shape : list nat;
  nd_data : list pyval
}.

(** [a[i, j]] of a two-dimensional array, through the row-major layout. *)
Definition nd_item2 (a : ndarray) (i j : nat) : option pyval :=
  match nd_shape a with
  | [rows; cols] =>
      if ((i <? rows) && (j <? cols))%nat then nth_error (nd_data a) (i * cols + j) else None
  | _ => None
  end.

(** [a.flatten().tolist()]: flatten copies in C order by default. *)
Definition flatten_tolist (a : ndarray) : list pyval := nd_data a.

(** [numpy.array(rows, dtype)] for a list of equally long rows. *)
Definition array2d (d : dtype) (rows : list (list pyval)) : ndarray :=
  mk_ndarray d [length rows; length (hd [] rows)] (concat rows).

(** The part of numpy that is not embedded: the parser of type names and
    the conversions of elements. *)
Class Numpy : Type := {
  (** [numpy.dtype(name)]; raises on a name numpy does not understand. *)
  np_dtype : string -> result dtype;
  (** [numpy.asarray(l)] for a Python list: element type and shape inferred. *)
  np_asarray : list pyval -> result ndarray;
  (** [a.astype(d)]: same shape, every element converted. *)
  np_astype : ndarray -> dtype -> result ndarray
}.

(** [numpy.reshape(a, (rows, cols), order='C')]: the elements stay in C
    order; one dimension may be negative and is then inferred from the
    size and the other one. *)
Definition np_reshape2 (a : ndarray) (rows cols : Z) : result ndarray :=
  let size := Z.of_nat (length (nd_data a)) in
  let reshaped (r c : Z) :=
    Return (mk_ndarray (nd_dtype a) [Z.to_nat r; Z.to_nat c] (nd_data a)) in
  if ((rows <? 0) && (cols <? 0))%Z then Raise ValueError
  else if (rows <? 0)%Z then
    if ((cols =? 0) || negb (size mod cols =? 0))%Z then Raise ValueError
    else reshaped (size / cols)%Z cols
  else if (cols <? 0)%Z then
    if ((rows =? 0) || negb (size mod rows =? 0))%Z then Raise ValueError
    else reshaped rows (size / rows)%Z
  else if (rows * cols =? size)%Z then reshaped rows cols
  else Raise ValueError.

(** ** The process and the gateway *)

(** A call that leaves the Python process for the JVM. *)
Record jcall : Type := mk_jcall {
  jc_target : pyval;
  jc_method : string;
  jc_args : list pyval
}.

(** What the JVM answers: a value, or an exception thrown on its side. *)
Inductive jresult : Type :=
| JReturn (v : pyval)
| JRaise (msg : string).

(** The remote engine. *)
Class JVM : Type := {
  jvm_invoke : jcall -> jresult
}.

Record SparkSession : Type := mk_SparkSession {
  _wrapped : pyval;
  (** [spark_session.rasterframes._jrfctx], when RasterFrames is enabled. *)
  rasterframes_jrfctx : option pyval
}.

Module RFContext.
Record t : Type := mk {
  _jrfctx : pyval;
  _spark_session : SparkSession
}.
End RFContext.

Record SparkContext : Type := mk_SparkContext {
  _rf_context : option RFContext.t
}.

(** The state of the Python process: the class attribute
    [SparkContext._active_spark_context] and the calls sent to the JVM so
    far, oldest first. *)
Record world : Type := mk_world {
  _active_spark_context : option SparkContext;
  io_log : list jcall
}.

(** The world after some more calls went to the JVM. *)
Definition logged (calls : list jcall) (w : world) : world :=
  mk_world (_active_spark_context w) (io_log w ++ calls).

(** Computations that may raise and may talk to the JVM. *)
Definition M (A : Type) : Type := world -> result A * world.

Definition ret {A} (a : A) : M A := fun w => (Return a, w).
Definition raise {A} (e : exn) : M A := fun w => (Raise e, w).
Definition lift {A} (r : result A) : M A := fun w => (r, w).

Definition bind {A B} (m : M A) (k : A -> M B) : M B :=
  fun w =>
    match m w with
    | (inl e, w') => (inl e, w')
    | (inr a, w') => k a w'
    end.

Declare Scope py_scope.
Delimit Scope py_scope with py.
Notation "x <- m ;; k" := (bind m (fun x => k))
  (at level 61, m at next level, right associativity) : py_scope.

(** [target.method(args)] through py4j: only a JavaObject has remote
    methods; the call is logged, and an exception of the JVM reaches Python
    as it is. *)
Definition py4j_call `{JVM} (target : pyval) (method : string) (args : list pyval)
  : M pyval :=
  match target with
  | PyJava _ =>
      fun w =>
        let c := mk_jcall target method args in
        match jvm_invoke c with
        | JReturn v => (Return v, logged [c] w)
        | JRaise msg => (Raise (RemoteCallError msg), logged [c] w)
        end
  | _ => raise (AttributeError method)
  end.

(** [f(args)]: calling a JavaMember sends the call to the JVM; the
    built-in values, a GTCellType and a Column are not callable.  (A Row
    is, as a factory of rows, which this module never is handed: that is
    not modelled.) *)
Definition py_call `{JVM} (f : pyval) (args : list pyval) : M pyval :=
  match f with
  | PyJavaMember target name => py4j_call target name args
  | _ => raise TypeError
  end.

(** [obj.name]: a Column answers any name that does not start with two
    underscores with the Column of that field, which it asks the JVM for
    ([getattr(self._jc, "apply")(name)]); everything else is looked up in
    the process. *)
Fixpoint getattr `{JVM} (v : pyval) (name : string) : M pyval :=
  match v with
  | PyColumn jc =>
      if prefix "__" name then raise (AttributeError name)
      else (member <- getattr jc "apply" ;;
            njc <- py_call member [PyStr name] ;;
            ret (PyColumn njc))%py
  | _ => lift (py_getattr v name)
  end.

(** [SparkContext._active_spark_context._rf_context]: attribute access on
    [None], or on a context RasterFrames was never enabled for, raises. *)
Definition active_rf_context : M RFContext.t :=
  fun w =>
    match _active_spark_context w with
    | None => (Raise (AttributeError "_rf_context"), w)
    | Some sc =>
        match _rf_context sc with
        | None => (Raise (AttributeError "_rf_context"), w)
        | Some ctx => (Return ctx, w)
        end
    end.

(** Modelled from the spec: [RFContext.call] of [pyrasterframes/context.py],
    the gateway call shim, which is not part of this module.  It locates the
    active remote engine context, looks the method up on it, invokes it with
    the arguments and returns the raw result; it fails with [NoActiveContext]
    if no engine context is bound in the process and with [RemoteCallError]
    if the remote invocation raises. *)
Definition RFContext_call `{JVM} (name : string) (args : list pyval) : M pyval :=
  fun w =>
    match _active_spark_context w with
    | None => (Raise NoActiveContext, w)
    | Some sc =>
        match _rf_context sc with
        | None => (Raise NoActiveContext, w)
        | Some ctx => py4j_call (RFContext._jrfctx ctx) name args w
        end
    end.

(** ** class GTCellType *)

Module GTCellType.

Record t : Type := __init__ { cell_type_name : string }.

Definition from_numpy_dtype (np_dtype : dtype) : t :=
  __init__ (dtype_str np_dtype).

(** The message of the exception for user-defined NoData. *)
Definition not_yet_implemented : string :=
  "Cell types with user-defined NoData values are not yet implemented.".

(** A boolean together with the proof that it is the value tested. *)
Definition inspect {A : Type} (x : A) : {y : A | x = y} := exist _ x eq_refl.

Section WithNumpy.
Context `{Numpy}.

(** The recursive call is on the name less its last three characters, so
    the recursion ends; the interpreter's bound on the depth of recursion
    is not part of the embedding. *)
Equations? to_numpy_dtype (self : t) : result dtype
  by wf (String.length (cell_type_name self)) lt :=
  to_numpy_dtype self with inspect (endswith (cell_type_name self) "raw") := {
    | @exist _ _ true Hraw =>
        to_numpy_dtype (__init__ (drop_last 3 (cell_type_name self)));
    | @exist _ _ false _ =>
        if py_in "ud" (cell_type_name self)
        then Raise (PyException not_yet_implemented)
        else np_dtype (cell_type_name self) }.
Proof.
  destruct self as [s]. cbn in *. unfold endswith, drop_last in *.
  apply andb_prop in Hraw. destruct Hraw as [Hlen _].
  apply Nat.leb_le in Hlen. cbn in Hlen.
  assert (Hsub : forall k u, String.length (substring 0 k u) <= k).
  { induction k; destruct u; cbn; try lia. specialize (IHk u). lia. }
  specialize (Hsub (String.length s - 3) s). lia.
Qed.
End WithNumpy.

(** The error the specification calls [UnsupportedFeature]: the
    exception [to_numpy_dtype] raises for user-defined NoData. *)
Definition UnsupportedFeature : exn := PyException not_yet_implemented.

Definition __eq__ (self : t) (other : pyval) : bool :=
  match other with
  | PyCellType name => String.eqb (cell_type_name self) name
  | _ => false
  end.

Definition __str__ (self : t) : string := cell_type_name self.

(** The instance as a Python value. *)
Definition to_py (self : t) : pyval := PyCellType (cell_type_name self).

End GTCellType.

(** ** class Tile *)

Module Tile.

Record t : Type := mk {
  cells : ndarray;
  cell_type : GTCellType.t
}.

Definition __init__ (cells : ndarray) : t :=
  mk cells (GTCellType.from_numpy_dtype (nd_dtype cells)).

(** [[self.cells.shape[1], self.cells.shape[0]]]: cols, then rows. *)
Definition dimensions (self : t) : result (list nat) :=
  match nth_error (nd_shape (cells self)) 1 with
  | None => Raise IndexError
  | Some cols =>
      match nth_error (nd_shape (cells self)) 0 with
      | None => Raise IndexError
      | Some rows => Return [cols; rows]
      end
  end.

End Tile.

(** ** Spark SQL types *)

(** The data types the two codecs declare.  A field is a name, a type and
    whether it is nullable; a user-defined type carries its own [sqlType]
    and [deserialize]. *)
#[warnings="-register-all"]
Inductive DataType : Type :=
| StringType
| ShortType
| IntegerType
| DoubleType
| BinaryType
| StructType (fields : list (string * DataType * bool))
| UserDefinedType (sqlType : DataType) (deserialize : pyval -> result pyval).

(** [DataType.fromInternal]: how Spark hands a stored value to Python.  A
    struct becomes a Row named after the schema's fields ([None] stays
    [None], a Row stays as it is, any other value is iterated and zipped
    with the fields); a user-defined type converts by its [sqlType] and
    then calls [deserialize], unless the value is [None]. *)
Fixpoint fromInternal (ty : DataType) (obj : pyval) {struct ty} : result pyval :=
  match ty with
  | StructType fields =>
      match obj with
      | PyNone => Return PyNone
      | PyRow _ => Return obj
      | _ =>
          (values <- py_list obj ;;
           row <-
             (fix zip_fields (fs : list (string * DataType * bool)) (vs : list pyval)
                : result (list (string * pyval)) :=
                match fs, vs with
                | (name, ty', _) :: fs', v :: vs' =>
                    x <- fromInternal ty' v ;;
                    rest <- zip_fields fs' vs' ;;
                    Return ((name, x) :: rest)
                | _, _ => Return []
                end) fields values ;;
           Return (PyRow row))%res
      end
  | UserDefinedType sqlType deserialize =>
      (v <- fromInternal sqlType obj ;;
       match v with
       | PyNone => Return PyNone
       | _ => deserialize v
       end)%res
  | _ => Return obj
  end.

(** ** class RasterSourceUDT *)

Module RasterSourceUDT.

Definition sqlType : DataType :=
  StructType [("raster_source_kryo", BinaryType, false)].

Definition module : string := "pyrasterframes.types".

Definition scalaUDT : string := "org.apache.spark.sql.rf.RasterSourceUDT".

(** Not yet implemented: [return None]. *)
Definition serialize (obj : pyval) : result pyval := Return PyNone.

(** [bytes(datum[0])], an expression statement: the bytes are dropped and
    the method falls off its end. *)
Definition deserialize (datum : pyval) : result pyval :=
  (x <- py_getitem datum 0 ;;
   _ <- py_bytes x ;;
   Return PyNone)%res.

(** [RasterSourceUDT()] as the type of a field. *)
Definition as_type : DataType := UserDefinedType sqlType deserialize.

End RasterSourceUDT.

(** ** class TileUDT *)

Module TileUDT.

(** Mirrors [schema] in the Scala companion object. *)
Definition sqlType : DataType :=
  StructType [
    ("cell_context", StructType [
       ("cell_type", StructType [
          ("cellTypeName", StringType, false)
        ], false);
       ("dimensions", StructType [
          ("cols", ShortType, false);
          ("rows", ShortType, false)
        ], false)
     ], false);
    ("cell_data", StructType [
       ("cells", BinaryType, true);
       ("ref", StructType [
          ("source", RasterSourceUDT.as_type, false);
          ("bandIndex", IntegerType, false);
          ("subextent", StructType [
             ("xmin", DoubleType, false);
             ("ymin", DoubleType, false);
             ("xmax", DoubleType, false);
             ("ymax", DoubleType, false)
           ], true)
        ], true)
     ], false)
  ].

Definition module : string := "pyrasterframes.types".

Definition scalaUDT : string := "org.apache.spark.sql.rf.TileUDT".

(** A dimension as [numpy.reshape] takes it: an integer, and not a
    bool. *)
Definition py_index (v : pyval) : result Z :=
  match v with
  | PyInt z => Return z
  | _ => Raise TypeError
  end.

Definition dims_to_py (dims : list nat) : list pyval :=
  map (fun n => PyInt (Z.of_nat n)) dims.

(** The four reads at the head of [deserialize] on a datum whose values
    on the way are held in the process: the cell type name, [cols],
    [rows] and the cell bytes, each by its path of attributes. *)
Definition read_datum (cell_type_field : string) (datum : pyval)
  : result (pyval * pyval * pyval * pyval) :=
  (cell_context <- py_getattr datum "cell_context" ;;
   ct <- py_getattr cell_context cell_type_field ;;
   cell_type_name <- py_getattr ct "cellTypeName" ;;
   cell_context <- py_getattr datum "cell_context" ;;
   dimensions <- py_getattr cell_context "dimensions" ;;
   cols <- py_getattr dimensions "cols" ;;
   cell_context <- py_getattr datum "cell_context" ;;
   dimensions <- py_getattr cell_context "dimensions" ;;
   rows <- py_getattr dimensions "rows" ;;
   cell_data <- py_getattr datum "cell_data" ;;
   cell_data_bytes <- py_getattr cell_data "cells" ;;
   Return (cell_type_name, cols, rows, cell_data_bytes))%res.

Section WithEngine.
Context `{Numpy} `{JVM}.

(** The row, built inside out as Python evaluates the list display:
    the cell type name, [tile.dimensions()], then the gateway call on
    the flattened cells and on [tile.dimensions()] again. *)
Definition serialize (tile : Tile.t) : M pyval :=
  (let cellTypeName := GTCellType.cell_type_name (Tile.cell_type tile) in
   dimensions <- lift (Tile.dimensions tile) ;;
   args <- lift (Tile.dimensions tile) ;;
   raw <- RFContext_call "_list_to_bytearray"
            (PyList (flatten_tolist (Tile.cells tile)) :: dims_to_py args) ;;
   cells <- lift (py_bytes raw) ;;
   ret (PyList [
          (* cell_context *)
          PyList [PyList [PyStr cellTypeName]; PyList (dims_to_py dimensions)];
          (* cell_data *)
          PyList [PyBytes cells; PyNone]
        ]))%py.

(** [GTCellType(name).to_numpy_dtype()] for whatever the row held as
    the name: a value that is not a [str] fails at [endswith]. *)
Definition to_numpy_dtype_of (name : pyval) : result dtype :=
  match name with
  | PyStr s => GTCellType.to_numpy_dtype (GTCellType.__init__ s)
  | PyBytes _ => Raise TypeError
  | _ => Raise (AttributeError "endswith")
  end.

(** The four reads at the head of [deserialize], on any datum: the cell
    type name, [cols], [rows] and the cell bytes, each by its path of
    attributes. *)
Definition read_fields (cell_type_field : string) (datum : pyval)
  : M (pyval * pyval * pyval * pyval) :=
  (cell_context <- getattr datum "cell_context" ;;
   ct <- getattr cell_context cell_type_field ;;
   cell_type_name <- getattr ct "cellTypeName" ;;
   cell_context <- getattr datum "cell_context" ;;
   dimensions <- getattr cell_context "dimensions" ;;
   cols <- getattr dimensions "cols" ;;
   cell_context <- getattr datum "cell_context" ;;
   dimensions <- getattr cell_context "dimensions" ;;
   rows <- getattr dimensions "rows" ;;
   cell_data <- getattr datum "cell_data" ;;
   cell_data_bytes <- getattr cell_data "cells" ;;
   ret (cell_type_name, cols, rows, cell_data_bytes))%py.

(** [deserialize], with the name under which it reads the cell type
    out of [cell_context] as a parameter. *)
Definition deserialize_reading (cell_type_field : string) (datum : pyval)
  : M Tile.t :=
  (fields <- read_fields cell_type_field datum ;;
   let '(cell_type_name, cols, rows, cell_data_bytes) := fields in
   raw <- RFContext_call "_bytearray_to_list"
            [cell_data_bytes; cell_type_name; cols; rows] ;;
   cell_value_list <- lift (py_list raw) ;;
   arr <- lift (np_asarray cell_value_list) ;;
   r <- lift (py_index rows) ;;
   c <- lift (py_index cols) ;;
   reshaped <- lift (np_reshape2 arr r c) ;;
   dt <- lift (to_numpy_dtype_of cell_type_name) ;;
   as_numpy <- lift (np_astype reshaped dt) ;;
   ret (Tile.__init__ as_numpy))%py.

(** The method as written: it reads [cell_context.cellType]. *)
Definition deserialize (datum : pyval) : M Tile.t :=
  deserialize_reading "cellType" datum.

(** A tile through the codec and the declared schema: [serialize], the
    row Spark builds from the result by [sqlType], [deserialize]. *)
Definition roundtrip_reading (cell_type_field : string) (tile : Tile.t)
  : M Tile.t :=
  (internal <- serialize tile ;;
   datum <- lift (fromInternal sqlType internal) ;;
   deserialize_reading cell_type_field datum)%py.

Definition roundtrip (tile : Tile.t) : M Tile.t :=
  roundtrip_reading "cellType" tile.

(** The two conversions of the gateway are inverse to each other on a
    list of cell values: [_list_to_bytearray] turns it into bytes, and
    [_bytearray_to_list] turns those bytes, with the cell type name
    and the same dimensions, back into the list. *)
Definition gateway_inverse_on
  (target : pyval) (flat : list pyval) (name : pyval) (dims : list pyval) : Prop :=
  exists bytes : list byte,
    jvm_invoke (mk_jcall target "_list_to_bytearray" (PyList flat :: dims))
      = JReturn (PyBytes bytes) /\
    jvm_invoke (mk_jcall target "_bytearray_to_list"
                  (PyBytes bytes :: name :: dims))
      = JReturn (PyList flat).

End WithEngine.

End TileUDT.

(** ** class RasterFrame *)

(** The builtins outside this module that [tileLayerMetadata] uses. *)
Class Builtins : Type := {
  (** [json.loads(s)]. *)
  json_loads : string -> result pyval;
  (** [str(v)] for a value that is neither a [str] nor a JavaObject. *)
  str_of : pyval -> string
}.

(** [str(v)]: py4j asks the JVM for [toString()] of a JavaObject. *)
Definition py_str `{JVM} `{Builtins} (v : pyval) : M string :=
  match v with
  | PyStr s => ret s
  | PyJava _ =>
      (r <- py4j_call v "toString" [] ;;
       match r with
       | PyStr s => ret s
       | _ => raise TypeError
       end)%py
  | _ => ret (str_of v)
  end.

Module RasterFrame.

(** A DataFrame ([_jdf], [sql_ctx]) with the engine context it was made
    with. *)
Record t : Type := mk {
  _jdf : pyval;
  sql_ctx : pyval;
  _jrfctx : pyval
}.

Definition __init__ (jdf : pyval) (spark_session : SparkSession) : result t :=
  match rasterframes_jrfctx spark_session with
  | Some jrfctx => Return (mk jdf (_wrapped spark_session) jrfctx)
  | None => Raise (AttributeError "rasterframes")
  end.

(** What an accessor returns: a value, or a new frame. *)
Inductive outcome : Type :=
| Value (v : pyval)
| Frame (f : t).

Section WithEngine.
Context `{JVM} `{Builtins}.

Definition tileColumns (self : t) : M outcome :=
  (cols <- py4j_call (_jrfctx self) "tileColumns" [_jdf self] ;;
   cs <- lift (py_list cols) ;;
   ret (Value (PyList (map PyColumn cs))))%py.

Definition spatialKeyColumn (self : t) : M outcome :=
  (col <- py4j_call (_jrfctx self) "spatialKeyColumn" [_jdf self] ;;
   ret (Value (PyColumn col)))%py.

Definition temporalKeyColumn (self : t) : M outcome :=
  (col <- py4j_call (_jrfctx self) "temporalKeyColumn" [_jdf self] ;;
   ret (Value (py_and col PyColumn)))%py.

Definition tileLayerMetadata (self : t) : M outcome :=
  (md <- py4j_call (_jrfctx self) "tileLayerMetadata" [_jdf self] ;;
   s <- py_str md ;;
   v <- lift (json_loads s) ;;
   ret (Value v))%py.

Definition spatialJoin (self other_df : t) : M outcome :=
  (ctx <- active_rf_context ;;
   df <- py4j_call (RFContext._jrfctx ctx) "spatialJoin" [_jdf self; _jdf other_df] ;;
   f <- lift (__init__ df (RFContext._spark_session ctx)) ;;
   ret (Frame f))%py.

Definition toIntRaster (self : t) (colname cols rows : pyval) : M outcome :=
  (resArr <- py4j_call (_jrfctx self) "toIntRaster" [_jdf self; colname; cols; rows] ;;
   ret (Value resArr))%py.

Definition toDoubleRaster (self : t) (colname cols rows : pyval) : M outcome :=
  (resArr <- py4j_call (_jrfctx self) "toDoubleRaster" [_jdf self; colname; cols; rows] ;;
   ret (Value resArr))%py.

Definition withBounds (self : t) : M outcome :=
  (ctx <- active_rf_context ;;
   df <- py4j_call (RFContext._jrfctx ctx) "withBounds" [_jdf self] ;;
   f <- lift (__init__ df (RFContext._spark_session ctx)) ;;
   ret (Frame f))%py.

Definition withCenter (self : t) : M outcome :=
  (ctx <- active_rf_context ;;
   df <- py4j_call (RFContext._jrfctx ctx) "withCenter" [_jdf self] ;;
   f <- lift (__init__ df (RFContext._spark_session ctx)) ;;
   ret (Frame f))%py.

Definition withCenterLatLng (self : t) : M outcome :=
  (ctx <- active_rf_context ;;
   df <- py4j_call (RFContext._jrfctx ctx) "withCenterLatLng" [_jdf self] ;;
   f <- lift (__init__ df (RFContext._spark_session ctx)) ;;
   ret (Frame f))%py.

Definition withSpatialIndex (self : t) : M outcome :=
  (ctx <- active_rf_context ;;
   df <- py4j_call (RFContext._jrfctx ctx) "withSpatialIndex" [_jdf self] ;;
   f <- lift (__init__ df (RFContext._spark_session ctx)) ;;
   ret (Frame f))%py.

(** The accessors of the facade, each with its arguments. *)
Inductive accessor : Type :=
| TileColumns
| SpatialKeyColumn
| TemporalKeyColumn
| TileLayerMetadata
| SpatialJoin (other_df : t)
| ToIntRaster (colname cols rows : pyval)
| ToDoubleRaster (colname cols rows : pyval)
| WithBounds
| WithCenter
| WithCenterLatLng
| WithSpatialIndex.

Definition invoke (a : accessor) (self : t) : M outcome :=
  match a with
  | TileColumns => tileColumns self
  | SpatialKeyColumn => spatialKeyColumn self
  | TemporalKeyColumn => temporalKeyColumn self
  | TileLayerMetadata => tileLayerMetadata self
  | SpatialJoin other_df => spatialJoin self other_df
  | ToIntRaster colname cols rows => toIntRaster self colname cols rows
  | ToDoubleRaster colname cols rows => toDoubleRaster self colname cols rows
  | WithBounds => withBounds self
  | WithCenter => withCenter self
  | WithCenterLatLng => withCenterLatLng self
  | WithSpatialIndex => withSpatialIndex self
  end.

(** The remote method an accessor calls, and the arguments it sends
    after the frame's own [_jdf]. *)
Definition method_of (a : accessor) : string :=
  match a with
  | TileColumns => "tileColumns"
  | SpatialKeyColumn => "spatialKeyColumn"
  | TemporalKeyColumn => "temporalKeyColumn"
  | TileLayerMetadata => "tileLayerMetadata"
  | SpatialJoin _ => "spatialJoin"
  | ToIntRaster _ _ _ => "toIntRaster"
  | ToDoubleRaster _ _ _ => "toDoubleRaster"
  | WithBounds => "withBounds"
  | WithCenter => "withCenter"
  | WithCenterLatLng => "withCenterLatLng"
  | WithSpatialIndex => "withSpatialIndex"
  end.

Definition args_of (a : accessor) : list pyval :=
  match a with
  | SpatialJoin other_df => [_jdf other_df]
  | ToIntRaster colname cols rows | ToDoubleRaster colname cols rows =>
      [colname; cols; rows]
  | _ => []
  end.

(** The accessors that look the engine context up in the process; the
    others use the one the frame holds. *)
Definition reads_active_context (a : accessor) : bool :=
  match a with
  | SpatialJoin _ | WithBounds | WithCenter | WithCenterLatLng | WithSpatialIndex => true
  | _ => false
  end.

End WithEngine.

End RasterFrame.

(** No engine context is bound in the process: there is no active Spark
    context, or RasterFrames was not enabled for it. *)
Definition no_bound_context (w : world) : Prop :=
  match _active_spark_context w with
  | None => True
  | Some sc => _rf_context sc = None
  end.

(** ** A small engine to run the code on

    An integer fragment of numpy and a JVM whose two conversions store a
    cell as a 32-bit big-endian integer.  The theorems below hold for every
    engine; this one runs the code on concrete tiles and frames. *)

Module Engine.

Definition all_dtypes : list dtype :=
  [np_bool; np_int8; np_int16; np_int32; np_int64;
   np_uint8; np_uint16; np_uint32; np_uint64;
   np_float16; np_float32; np_float64].

(** [numpy.dtype] on the canonical names. *)
Definition dtype_of_name (name : string) : result dtype :=
  match find (fun d => String.eqb (dtype_str d) name) all_dtypes with
  | Some d => Return d
  | None => Raise TypeError
  end.

(** Signedness and width of the integer types. *)
Definition int_format (d : dtype) : option (bool * Z) :=
  match d with
  | np_int8 => Some (true, 8%Z) | np_int16 => Some (true, 16%Z)
  | np_int32 => Some (true, 32%Z) | np_int64 => Some (true, 64%Z)
  | np_uint8 => Some (false, 8%Z) | np_uint16 => Some (false, 16%Z)
  | np_uint32 => Some (false, 32%Z) | np_uint64 => Some (false, 64%Z)
  | _ => None
  end.

(** The C conversion of an integer to a [w]-bit integer type: it wraps. *)
Definition wrap (signed : bool) (w : Z) (z : Z) : Z :=
  if signed
  then ((z + 2 ^ (w - 1)) mod 2 ^ w - 2 ^ (w - 1))%Z
  else (z mod 2 ^ w)%Z.

Definition is_int (v : pyval) : bool :=
  match v with PyInt _ => true | _ => false end.

Definition cast_to (d : dtype) (v : pyval) : result pyval :=
  match v, int_format d with
  | PyInt z, Some (signed, w) => Return (PyInt (wrap signed w z))
  | _, _ => Raise TypeError
  end.

Fixpoint traverse {A B} (f : A -> result B) (l : list A) : result (list B) :=
  match l with
  | [] => Return []
  | a :: l' => (b <- f a ;; bs <- traverse f l' ;; Return (b :: bs))%res
  end.

Definition numpy : Numpy := {|
  np_dtype := dtype_of_name;
  np_asarray := fun l =>
    match l with
    | [] => Return (mk_ndarray np_float64 [0] [])
    | _ =>
        if forallb is_int l
        then Return (mk_ndarray np_int64 [length l] l)
        else Raise TypeError
    end;
  np_astype := fun a d =>
    (data <- traverse (cast_to d) (nd_data a) ;;
     Return (mk_ndarray d (nd_shape a) data))%res
|}.

Definition byte_of_Z (z : Z) : byte :=
  match Byte.of_N (Z.to_N (z mod 256)) with
  | Some b => b
  | None => x00
  end.

Definition Z_of_byte (b : byte) : Z := Z.of_N (Byte.to_N b).

Definition encode_int32 (z : Z) : list byte :=
  [byte_of_Z (Z.shiftr z 24); byte_of_Z (Z.shiftr z 16);
   byte_of_Z (Z.shiftr z 8); byte_of_Z z].

Definition encode_cell (v : pyval) : option (list byte) :=
  match v with
  | PyInt z =>
      if ((- 2 ^ 31 <=? z) && (z <? 2 ^ 31))%Z then Some (encode_int32 z) else None
  | _ => None
  end.

Fixpoint encode_cells (l : list pyval) : option (list byte) :=
  match l with
  | [] => Some []
  | v :: l' =>
      match encode_cell v, encode_cells l' with
      | Some b, Some bs => Some (b ++ bs)%list
      | _, _ => None
      end
  end.

Fixpoint decode_cells (fuel : nat) (b : list byte) : option (list pyval) :=
  match fuel, b with
  | _, [] => Some []
  | S fuel', b3 :: b2 :: b1 :: b0 :: rest =>
      let u := (Z.shiftl (Z_of_byte b3) 24 + Z.shiftl (Z_of_byte b2) 16
                + Z.shiftl (Z_of_byte b1) 8 + Z_of_byte b0)%Z in
      match decode_cells fuel' rest with
      | Some vs => Some (PyInt (wrap true 32 u) :: vs)
      | None => None
      end
  | _, _ => None
  end.

(** The engine: the two conversions, the columns of a frame (the frame
    with handle 0 has no temporal key), nothing else. *)
Definition jvm : JVM := {|
  jvm_invoke := fun c =>
    if String.eqb (jc_method c) "_list_to_bytearray" then
      match jc_args c with
      | [PyList flat; _; _] =>
          match encode_cells flat with
          | Some b => JReturn (PyBytes b)
          | None => JRaise "java.lang.ClassCastException"
          end
      | _ => JRaise "java.lang.IllegalArgumentException"
      end
    else if String.eqb (jc_method c) "_bytearray_to_list" then
      match jc_args c with
      | [PyBytes b; _; _; _] =>
          match decode_cells (length b) b with
          | Some vs => JReturn (PyList vs)
          | None => JRaise "java.lang.IllegalArgumentException"
          end
      | _ => JRaise "java.lang.IllegalArgumentException"
      end
    else if String.eqb (jc_method c) "temporalKeyColumn" then
      match jc_args c with
      | [PyJava 0] => JReturn PyNone
      | [PyJava n] => JReturn (PyJava (1000 + n))
      | _ => JRaise "java.lang.IllegalArgumentException"
      end
    else if String.eqb (jc_method c) "tileColumns" then
      JReturn (PyList [PyJava 7])
    else JRaise "java.lang.NoSuchMethodException"
|}.

(** An engine that cannot be reached. *)
Definition unreachable_jvm : JVM := {|
  jvm_invoke := fun _ => JRaise "py4j.protocol.Py4JNetworkError"
|}.

Definition builtins : Builtins := {|
  json_loads := fun s => Return (PyStr s);
  str_of := fun _ => ""
|}.

Definition session : SparkSession := mk_SparkSession (PyJava 2) (Some (PyJava 1)).

(** A process with RasterFrames enabled, and one with no Spark context. *)
Definition bound : world :=
  mk_world (Some (mk_SparkContext (Some (RFContext.mk (PyJava 1) session)))) [].

Definition unbound : world := mk_world None [].

(** The 2 x 3 tile of 16-bit integers [[1, 2, 3], [4, 5, 6]]. *)
Definition tile_2x3 : Tile.t :=
  Tile.__init__
    (array2d np_int16
       [[PyInt 1; PyInt 2; PyInt 3]; [PyInt 4; PyInt 5; PyInt 6]]).

(** A frame made while the context was bound. *)
Definition frame : RasterFrame.t := RasterFrame.mk (PyJava 10) (PyJava 2) (PyJava 1).

(** A frame with no temporal key. *)
Definition frame0 : RasterFrame.t := RasterFrame.mk (PyJava 0) (PyJava 2) (PyJava 1).

(** The cells of [tile_2x3], flattened, and the bytes [jvm] makes of them. *)
Definition flat_2x3 : list pyval :=
  [PyInt 1; PyInt 2; PyInt 3; PyInt 4; PyInt 5; PyInt 6].

Definition bytes_2x3 : list byte :=
  [x00; x00; x00; x01; x00; x00; x00; x02; x00; x00; x00; x03;
   x00; x00; x00; x04; x00; x00; x00; x05; x00; x00; x00; x06].

(** A row as [deserialize] reads it. *)
Definition datum_2x3 (cells : list byte) : pyval :=
  PyRow [
    ("cell_context", PyRow [
       ("cellType", PyRow [("cellTypeName", PyStr "int16")]);
       ("dimensions", PyRow [("cols", PyInt 3); ("rows", PyInt 2)])
     ]);
    ("cell_data", PyRow [("cells", PyBytes cells); ("ref", PyNone)])
  ].

End Engine.

(** ** class TileExploder, class NoDataFilter *)

(** pyspark's [JavaWrapper._new_java_obj(java_class, args)], which builds
    the wrapped object on the JVM; it is not part of this module. *)
Class JavaWrapper : Type := {
  _new_java_obj : string -> list pyval -> M pyval
}.

Module TileExploder.

(** Python wrapper for TileExploder.scala: the [uid] pyspark gave the
    instance, and the Java object. *)
Record t : Type := mk {
  uid : string;
  _java_obj : pyval
}.

Definition __init__ `{JavaWrapper} (uid : string) : M t :=
  (java_obj <- _new_java_obj "org.locationtech.rasterframes.ml.TileExploder"
                 [PyStr uid] ;;
   ret (mk uid java_obj))%py.

End TileExploder.

Module NoDataFilter.

(** Python wrapper for NoDataFilter.scala. *)
Record t : Type := mk {
  uid : string;
  _java_obj : pyval
}.

Definition __init__ `{JavaWrapper} (uid : string) : M t :=
  (java_obj <- _new_java_obj "org.locationtech.rasterframes.ml.NoDataFilter"
                 [PyStr uid] ;;
   ret (mk uid java_obj))%py.

(** [self._java_obj.setInputCols(values)], and the method ends: it
    returns [None]. *)
Definition setInputCols `{JVM} (self : t) (values : pyval) : M pyval :=
  (_ <- py4j_call (_java_obj self) "setInputCols" [values] ;;
   ret PyNone)%py.

End NoDataFilter.

(** A row of a materialized tile, with the cell type under the given
    field name. *)
Definition tile_row (cell_type_field name : string) (cols rows : Z)
    (cells : list byte) : pyval :=
  PyRow [
    ("cell_context", PyRow [
       (cell_type_field, PyRow [("cellTypeName", PyStr name)]);
       ("dimensions", PyRow [("cols", PyInt cols); ("rows", PyInt rows)])
     ]);
    ("cell_data", PyRow [("cells", PyBytes cells); ("ref", PyNone)])
  ].

(** An engine that answers [None] to every call. *)
Definition null_jvm : JVM := {|
  jvm_invoke := fun _ => JReturn PyNone
|}.

(** An engine that answers every call with the same value. *)
Definition const_jvm (v : pyval) : JVM := {|
  jvm_invoke := fun _ => JReturn v
|}.

(** ** What the codec takes from numpy *)

(** [numpy.dtype] knows every element type by its own name. *)
Definition dtype_names_resolve `{Numpy} : Prop :=
  forall d : dtype, np_dtype (dtype_str d) = Return d.

(** [astype] gives an array of the type asked for, of the same shape. *)
Definition astype_keeps_shape `{Numpy} : Prop :=
  forall (a a' : ndarray) (d : dtype),
    np_astype a d = Return a' -> nd_dtype a' = d /\ nd_shape a' = nd_shape a.

(** A value all of whose attributes are held in the process: it is no
    Column, whose attributes the JVM computes, and no list, which as a
    JavaList is a JavaObject, and a Row of such values only. *)
Fixpoint in_process (v : pyval) : bool :=
  match v with
  | PyColumn _ | PyList _ => false
  | PyJavaMember target _ => in_process target
  | PyRow fields =>
      (fix all (fs : list (string * pyval)) : bool :=
         match fs with
         | [] => true
         | (_, x) :: fs' => in_process x && all fs'
         end) fields
  | _ => true
  end.

(** [n] suffixes ["raw"] after a name. *)
Definition with_raw (n : nat) (name : string) : string :=
  Nat.iter n (fun s => s ++ "raw") name.

(** A process in which RasterFrames is enabled on the active context, with
    the JavaObject [PyJava k] as the engine context. *)
Definition bound_to (k : nat) (session : SparkSession) (w : world) : Prop :=
  _active_spark_context w =
    Some (mk_SparkContext (Some (RFContext.mk (PyJava k) session))).

(** * Properties *)

(** ** Strings *)

Section StringFacts.

Lemma string_length_app (s t : string) :
  String.length (s ++ t) = String.length s + String.length t.
Proof. induction s as [|c s IH]; cbn; [reflexivity | now rewrite IH]. Qed.

Lemma substring_whole (s : string) : substring 0 (String.length s) s = s.
Proof. induction s as [|c s IH]; cbn; [reflexivity | now rewrite IH]. Qed.

Lemma substring_app_left (s t : string) :
  substring 0 (String.length s) (s ++ t) = s.
Proof.
  induction s as [|c s IH]; cbn.
  - now destruct t.
  - now rewrite IH.
Qed.

Lemma substring_app_right (s t : string) (m : nat) :
  substring (String.length s) m (s ++ t) = substring 0 m t.
Proof. induction s as [|c s IH]; cbn; [reflexivity | exact IH]. Qed.

Lemma substring_split (s : string) :
  forall k, k <= String.length s ->
  substring 0 k s ++ substring k (String.length s - k) s = s.
Proof.
  induction s as [|c s IH]; intros k Hk; cbn in Hk.
  - assert (k = 0) by lia. subst k. reflexivity.
  - destruct k as [|k].
    + cbn. now rewrite substring_whole.
    + cbn. rewrite IH by lia. reflexivity.
Qed.

Lemma endswith_app (s suffix : string) : endswith (s ++ suffix) suffix = true.
Proof.
  unfold endswith. rewrite string_length_app.
  replace (String.length s + String.length suffix - String.length suffix)
    with (String.length s) by lia.
  rewrite substring_app_right, substring_whole, String.eqb_refl.
  rewrite andb_true_r. apply Nat.leb_le. lia.
Qed.

Lemma drop_last_app (s suffix : string) :
  drop_last (String.length suffix) (s ++ suffix) = s.
Proof.
  unfold drop_last. rewrite string_length_app.
  replace (String.length s + String.length suffix - String.length suffix)
    with (String.length s) by lia.
  apply substring_app_left.
Qed.

Lemma endswith_split (s suffix : string) :
  endswith s suffix = true -> s = drop_last (String.length suffix) s ++ suffix.
Proof.
  unfold endswith, drop_last. intros H.
  apply andb_prop in H. destruct H as [Hlen Heq].
  apply Nat.leb_le in Hlen. apply String.eqb_eq in Heq.
  pose proof (substring_split s (k := String.length s - String.length suffix)) as Hs.
  replace (String.length s - (String.length s - String.length suffix))
    with (String.length suffix) in Hs by lia.
  rewrite Heq in Hs. symmetry. apply Hs. lia.
Qed.

(** The marker cannot straddle the boundary with the suffix, nor lie in
    it: stripping ["raw"] keeps the marker in. *)
Lemma py_in_ud_app_raw (s : string) : py_in "ud" (s ++ "raw") = py_in "ud" s.
Proof.
  induction s as [|c s IH]; [reflexivity|].
  change (String c s ++ "raw") with (String c (s ++ "raw")).
  cbn [py_in]. rewrite IH. f_equal.
  destruct s as [|d s]; cbn -[ascii_dec].
  - destruct (ascii_dec "u" c); [|reflexivity].
    destruct (ascii_dec "d" "r") as [E|]; [discriminate E | reflexivity].
  - destruct (ascii_dec "u" c); [|reflexivity].
    destruct (ascii_dec "d" d); [|reflexivity].
    now destruct s.
Qed.

End StringFacts.

(** ** The cell-type registry *)

Section CellTypeFacts.
Context `{Numpy}.

(** One step of [to_numpy_dtype], as the method reads. *)
Lemma to_numpy_dtype_body (self : GTCellType.t) :
  GTCellType.to_numpy_dtype self =
  if endswith (GTCellType.cell_type_name self) "raw"
  then GTCellType.to_numpy_dtype
         (GTCellType.__init__ (drop_last 3 (GTCellType.cell_type_name self)))
  else if py_in "ud" (GTCellType.cell_type_name self)
       then Raise (PyException GTCellType.not_yet_implemented)
       else np_dtype (GTCellType.cell_type_name self).
Proof.
  rewrite GTCellType.to_numpy_dtype_equation_1.
  destruct (GTCellType.inspect (endswith (GTCellType.cell_type_name self) "raw"))
    as [[|] e].
  - rewrite GTCellType.to_numpy_dtype_clause_1_equation_1. now rewrite e.
  - rewrite GTCellType.to_numpy_dtype_clause_1_equation_2. now rewrite e.
Qed.

(** The ["raw"] suffix is stripped before anything else is looked at. *)
Lemma to_numpy_dtype_raw (s : string) :
  GTCellType.to_numpy_dtype (GTCellType.__init__ (s ++ "raw")) =
  GTCellType.to_numpy_dtype (GTCellType.__init__ s).
Proof.
  rewrite to_numpy_dtype_body. cbn [GTCellType.cell_type_name].
  rewrite endswith_app.
  change 3 with (String.length "raw"). now rewrite drop_last_app.
Qed.

(** A name without suffix and without marker goes to numpy as it is. *)
Lemma to_numpy_dtype_plain (s : string) :
  endswith s "raw" = false -> py_in "ud" s = false ->
  GTCellType.to_numpy_dtype (GTCellType.__init__ s) = np_dtype s.
Proof.
  intros Hraw Hud. rewrite to_numpy_dtype_body. cbn [GTCellType.cell_type_name].
  now rewrite Hraw, Hud.
Qed.

End CellTypeFacts.

(** The marker decides, however many ["raw"] suffixes follow it. *)
Lemma to_numpy_dtype_marker_raises `{Numpy} (self : GTCellType.t) :
  py_in "ud" (GTCellType.cell_type_name self) = true ->
  GTCellType.to_numpy_dtype self = Raise GTCellType.UnsupportedFeature.
Proof.
  funelim (GTCellType.to_numpy_dtype self); intros Hud.
  - match goal with IH : _ -> GTCellType.to_numpy_dtype _ = _ |- _ => apply IH end.
    cbn [GTCellType.cell_type_name].
    rewrite (endswith_split _ _ Hraw) in Hud. cbn [String.length] in Hud.
    now rewrite py_in_ud_app_raw in Hud.
  - now rewrite Hud.
Qed.

(** C3.  Resolving a cell type whose identifier contains the marker of a
    user-defined NoData value, ["ud"], raises the exception the
    specification calls UnsupportedFeature, and returns no element type.
    The ["raw"] suffixes are stripped first, and the marker survives the
    stripping. *)
Theorem to_numpy_dtype_user_defined_nodata `{Numpy} (self : GTCellType.t) :
  py_in "ud" (GTCellType.cell_type_name self) = true ->
  GTCellType.to_numpy_dtype self = Raise GTCellType.UnsupportedFeature /\
  forall d : dtype, GTCellType.to_numpy_dtype self <> Return d.
Proof.
  intros Hud. rewrite (to_numpy_dtype_marker_raises self Hud).
  split; [reflexivity | discriminate].
Qed.

Lemma to_numpy_dtype_user_defined_nodata_int8ud123 :
  py_in "ud" "int8ud123" = true /\
  @GTCellType.to_numpy_dtype Engine.numpy (GTCellType.__init__ "int8ud123")
    = Raise GTCellType.UnsupportedFeature.
Proof.
  split; [reflexivity|].
  apply (@to_numpy_dtype_user_defined_nodata Engine.numpy). reflexivity.
Defined.

(** Any number of ["raw"] suffixes is stripped, one per recursive call. *)
Lemma to_numpy_dtype_raw_iter `{Numpy} (n : nat) (s : string) :
  GTCellType.to_numpy_dtype
    (GTCellType.__init__ (Nat.iter n (fun x => x ++ "raw") s)) =
  GTCellType.to_numpy_dtype (GTCellType.__init__ s).
Proof.
  induction n as [|n IH]; [reflexivity|].
  cbn [Nat.iter nat_rect]. now rewrite to_numpy_dtype_raw.
Qed.

(** The marker is in a name with suffixes exactly when it is in the name
    without them. *)
Lemma py_in_ud_with_raw (n : nat) (s : string) :
  py_in "ud" (with_raw n s) = py_in "ud" s.
Proof.
  induction n as [|n IH]; [reflexivity|].
  change (with_raw (S n) s) with (with_raw n s ++ "raw").
  now rewrite py_in_ud_app_raw.
Qed.

(** Every name is a base that does not end in ["raw"] followed by
    suffixes, and what is looked at, for the marker and by numpy, is the
    base. *)
Lemma to_numpy_dtype_base `{Numpy} (self : GTCellType.t) :
  exists (base : string) (n : nat),
    GTCellType.cell_type_name self = with_raw n base /\
    endswith base "raw" = false /\
    GTCellType.to_numpy_dtype self =
      if py_in "ud" base then Raise GTCellType.UnsupportedFeature else np_dtype base.
Proof.
  funelim (GTCellType.to_numpy_dtype self).
  - match goal with IH : exists _ _, _ |- _ =>
      destruct IH as (base & n & Hname & Hbase & Hres) end.
    cbn [GTCellType.cell_type_name] in Hname.
    exists base, (S n). split; [|split; [exact Hbase | exact Hres]].
    rewrite (endswith_split _ _ Hraw). cbn [String.length].
    now rewrite Hname.
  - exists (GTCellType.cell_type_name self), 0. split; [reflexivity|]. now split.
Qed.

(** C4.  For an identifier [s] without the marker of a user-defined NoData
    value, the cell type named [s] followed by ["raw"] resolves to the
    same element type as the cell type named [s]: the call strips the
    suffix and recurses on [s], and so on through any number of
    suffixes.  What numpy is asked for is the name without its suffixes:
    [s] itself when [s] does not end in ["raw"], and in general the base
    of [s], the part of it before its trailing suffixes. *)
Theorem to_numpy_dtype_raw_suffix `{Numpy} (s : string) :
  py_in "ud" s = false ->
  GTCellType.to_numpy_dtype (GTCellType.__init__ (s ++ "raw")) =
  GTCellType.to_numpy_dtype (GTCellType.__init__ s) /\
  (forall n : nat,
     GTCellType.to_numpy_dtype
       (GTCellType.__init__ (Nat.iter n (fun x => x ++ "raw") s)) =
     GTCellType.to_numpy_dtype (GTCellType.__init__ s)) /\
  (endswith s "raw" = false ->
   forall n : nat,
     GTCellType.to_numpy_dtype (GTCellType.__init__ (with_raw n s)) = np_dtype s) /\
  (exists (base : string) (k : nat),
     s = with_raw k base /\ endswith base "raw" = false /\
     GTCellType.to_numpy_dtype (GTCellType.__init__ (s ++ "raw")) = np_dtype base).
Proof.
  intros Hud. split; [apply to_numpy_dtype_raw|].
  split; [intros n; apply to_numpy_dtype_raw_iter|]. split.
  - intros Hraw n. unfold with_raw. rewrite to_numpy_dtype_raw_iter.
    now apply to_numpy_dtype_plain.
  - destruct (to_numpy_dtype_base (GTCellType.__init__ s))
      as (base & k & Hname & Hbase & Hres).
    cbn [GTCellType.cell_type_name] in Hname.
    exists base, k. split; [exact Hname|]. split; [exact Hbase|].
    rewrite to_numpy_dtype_raw, Hres.
    rewrite Hname, py_in_ud_with_raw in Hud. now rewrite Hud.
Qed.

Lemma to_numpy_dtype_raw_suffix_int8 :
  py_in "ud" "int8" = false /\
  @GTCellType.to_numpy_dtype Engine.numpy (GTCellType.__init__ ("int8" ++ "raw")) =
  @GTCellType.to_numpy_dtype Engine.numpy (GTCellType.__init__ "int8") /\
  @GTCellType.to_numpy_dtype Engine.numpy (GTCellType.__init__ "int8raw") =
  Return np_int8.
Proof.
  destruct (@to_numpy_dtype_raw_suffix Engine.numpy "int8" eq_refl)
    as (Hsame & _ & Hplain & _).
  split; [reflexivity|]. split; [exact Hsame|]. exact (Hplain eq_refl 1).
Defined.

(** With numpy's names, ["int8raw"] and ["int8"] both resolve to [int8]. *)
Example to_numpy_dtype_int8raw :
  @GTCellType.to_numpy_dtype Engine.numpy (GTCellType.__init__ "int8raw") = Return np_int8
  /\ @GTCellType.to_numpy_dtype Engine.numpy (GTCellType.__init__ "int8") = Return np_int8.
Proof. split; reflexivity. Qed.

(** C5.  Two cell types are equal exactly when their identifiers are the
    same string, character for character; a cell type is equal to no value
    of another type, its own identifier as a bare string included. *)
Theorem GTCellType_eq_exact (a : GTCellType.t) :
  (forall b : GTCellType.t,
     GTCellType.__eq__ a (GTCellType.to_py b) = true <->
     GTCellType.cell_type_name a = GTCellType.cell_type_name b) /\
  (forall other : pyval,
     (forall name, other <> PyCellType name) -> GTCellType.__eq__ a other = false) /\
  GTCellType.__eq__ a (PyStr (GTCellType.cell_type_name a)) = false.
Proof.
  split; [|split].
  - intros b. cbn. apply String.eqb_eq.
  - intros other Hother. destruct other as [| | | | | | | | | | |name]; try reflexivity.
    now contradiction (Hother name).
  - reflexivity.
Qed.

Lemma GTCellType_eq_exact_int8 :
  GTCellType.__eq__ (GTCellType.__init__ "int8")
    (GTCellType.to_py (GTCellType.__init__ "int8")) = true /\
  GTCellType.__eq__ (GTCellType.__init__ "int8") (PyInt 8) = false.
Proof.
  destruct (GTCellType_eq_exact (GTCellType.__init__ "int8")) as [Hsame [Hother _]].
  split.
  - apply Hsame. reflexivity.
  - apply Hother. discriminate.
Defined.

(** No case folding and no normalization of the number in the name. *)
Example GTCellType_eq_no_folding :
  GTCellType.__eq__ (GTCellType.__init__ "int8") (PyCellType "Int8") = false /\
  GTCellType.__eq__ (GTCellType.__init__ "int8ud1") (PyCellType "int8ud01") = false /\
  GTCellType.__eq__ (GTCellType.__init__ "int8") (PyCellType "int8") = true.
Proof. repeat split. Qed.

(** ** The tile value *)

(** C2.  A tile made from a two-dimensional buffer of shape (rows, cols)
    reports its dimensions as cols, then rows: width first, the buffer's
    own shape swapped.  A buffer of shape (3, 5) gives (5, 3). *)
Theorem Tile_dimensions_cols_rows :
  (forall (d : dtype) (rows cols : nat) (data : list pyval),
     Tile.dimensions (Tile.__init__ (mk_ndarray d [rows; cols] data))
       = Return [cols; rows]) /\
  (forall (d : dtype) (data : list pyval),
     Tile.dimensions (Tile.__init__ (mk_ndarray d [3; 5] data)) = Return [5; 3]).
Proof. split; reflexivity. Qed.

(** The tile [[1, 2, 3], [4, 5, 6]] is 3 wide and 2 high. *)
Example Tile_dimensions_2x3 : Tile.dimensions Engine.tile_2x3 = Return [3; 2].
Proof. reflexivity. Qed.

(** A buffer with fewer than two axes has no [shape[1]]. *)
Example Tile_dimensions_1d :
  Tile.dimensions (Tile.__init__ (mk_ndarray np_int16 [6] [])) = Raise IndexError.
Proof. reflexivity. Qed.

(** [flatten] lists the cells row by row: cell (i, j) of a buffer with
    [cols] columns is element [i * cols + j]. *)
Lemma flatten_row_major (a : ndarray) (rows cols i j : nat) (v : pyval) :
  nd_shape a = [rows; cols] ->
  nd_item2 a i j = Some v ->
  nth_error (flatten_tolist a) (i * cols + j) = Some v.
Proof.
  unfold nd_item2, flatten_tolist. intros ->.
  destruct ((i <? rows) && (j <? cols))%nat; [trivial | discriminate].
Qed.

(** ** The remote-source codec *)

(** On an empty row [datum[0]] raises: [deserialize] does not return
    [None] for every datum. *)
Lemma RasterSourceUDT_deserialize_not_total :
  RasterSourceUDT.deserialize (PyList []) = Raise IndexError /\
  ~ (forall datum, RasterSourceUDT.deserialize datum = Return PyNone).
Proof.
  split; [reflexivity|].
  intros Hall. specialize (Hall (PyList [])). discriminate Hall.
Qed.

(** C10, amended.  [serialize] returns [None] for every object.
    [deserialize] returns [None] or raises, whatever the datum, so it never
    returns a usable value; on every row Spark builds by the codec's
    [sqlType] from stored bytes it returns [None]. *)
Theorem RasterSourceUDT_returns_nothing_usable :
  (forall obj : pyval, RasterSourceUDT.serialize obj = Return PyNone) /\
  (forall datum : pyval,
     RasterSourceUDT.deserialize datum = Return PyNone \/
     exists e, RasterSourceUDT.deserialize datum = Raise e) /\
  (forall kryo : list byte,
     (datum <- fromInternal RasterSourceUDT.sqlType (PyList [PyBytes kryo]) ;;
      RasterSourceUDT.deserialize datum)%res = Return PyNone).
Proof.
  repeat split.
  intros datum. unfold RasterSourceUDT.deserialize.
  destruct (py_getitem datum 0) as [e|x]; cbn; [right; now exists e|].
  destruct (py_bytes x) as [e|b]; cbn; [right; now exists e | now left].
Qed.

(** ** The monad *)

Section MonadFacts.
Context {A B : Type}.

Lemma bind_Return (m : M A) (k : A -> M B) (w w' : world) (a : A) :
  m w = (Return a, w') -> bind m k w = k a w'.
Proof. unfold bind. now intros ->. Qed.

Lemma bind_Raise (m : M A) (k : A -> M B) (w w' : world) (e : exn) :
  m w = (Raise e, w') -> bind m k w = (Raise e, w').
Proof. unfold bind. now intros ->. Qed.

Lemma bind_lift_Return (a : A) (k : A -> M B) (w : world) :
  bind (lift (Return a)) k w = k a w.
Proof. reflexivity. Qed.

Lemma bind_lift_Raise (e : exn) (k : A -> M B) (w : world) :
  bind (lift (Raise e)) k w = (Raise e, w).
Proof. reflexivity. Qed.

End MonadFacts.

(** The gateway shim sends at most one call, and none when it fails for
    want of a context. *)
Lemma RFContext_call_once `{JVM} (name : string) (args : list pyval)
    (w w' : world) (r : result pyval) :
  RFContext_call name args w = (r, w') ->
  _active_spark_context w' = _active_spark_context w /\
  (io_log w' = io_log w \/
   exists target, io_log w' = (io_log w ++ [mk_jcall target name args])%list).
Proof.
  unfold RFContext_call, py4j_call, raise.
  destruct (_active_spark_context w) as [sc|] eqn:Hsc.
  2: { intros [= <- <-]. rewrite Hsc. auto. }
  destruct (_rf_context sc) as [ctx|].
  2: { intros [= <- <-]. rewrite Hsc. auto. }
  destruct (RFContext._jrfctx ctx) eqn:Htarget;
    try (intros [= <- <-]; rewrite Hsc; now auto).
  destruct (jvm_invoke _); intros [= <- <-]; cbn; split; eauto.
Qed.

(** ** The tile codec: serialize *)

Lemma Tile_dimensions_2d (tile : Tile.t) (rows cols : nat) :
  nd_shape (Tile.cells tile) = [rows; cols] ->
  Tile.dimensions tile = Return [cols; rows].
Proof. unfold Tile.dimensions. now intros ->. Qed.

(** [serialize] returns as soon as the tile has dimensions and the gateway
    answers something [bytearray] accepts. *)
Lemma serialize_returns `{JVM} (tile : Tile.t) (dims : list nat)
    (w w' : world) (raw : pyval) (cells : list byte) :
  Tile.dimensions tile = Return dims ->
  RFContext_call "_list_to_bytearray"
    (PyList (flatten_tolist (Tile.cells tile)) :: TileUDT.dims_to_py dims) w
    = (Return raw, w') ->
  py_bytes raw = Return cells ->
  TileUDT.serialize tile w =
    (Return (PyList [
       PyList [PyList [PyStr (GTCellType.cell_type_name (Tile.cell_type tile))];
               PyList (TileUDT.dims_to_py dims)];
       PyList [PyBytes cells; PyNone]]),
     w').
Proof.
  intros Hdims Hcall Hbytes. unfold TileUDT.serialize.
  rewrite Hdims, !bind_lift_Return.
  erewrite bind_Return by exact Hcall. rewrite Hbytes. reflexivity.
Qed.

(** Whatever [serialize] returns, it got from a tile with dimensions and
    a gateway call whose answer [bytearray] accepted. *)
Lemma serialize_inv `{JVM} (tile : Tile.t) (w w' : world) (record : pyval) :
  TileUDT.serialize tile w = (Return record, w') ->
  exists (cols rows : nat) (raw : pyval) (cells : list byte),
    Tile.dimensions tile = Return [cols; rows] /\
    RFContext_call "_list_to_bytearray"
      [PyList (flatten_tolist (Tile.cells tile));
       PyInt (Z.of_nat cols); PyInt (Z.of_nat rows)] w = (Return raw, w') /\
    py_bytes raw = Return cells /\
    record =
      PyList [
        PyList [PyList [PyStr (GTCellType.cell_type_name (Tile.cell_type tile))];
                PyList [PyInt (Z.of_nat cols); PyInt (Z.of_nat rows)]];
        PyList [PyBytes cells; PyNone]].
Proof.
  unfold TileUDT.serialize, Tile.dimensions.
  destruct (nth_error (nd_shape (Tile.cells tile)) 1) as [cols|];
    [|rewrite bind_lift_Raise; discriminate].
  destruct (nth_error (nd_shape (Tile.cells tile)) 0) as [rows|];
    [|rewrite bind_lift_Raise; discriminate].
  rewrite !bind_lift_Return. unfold bind at 1.
  cbn [TileUDT.dims_to_py map].
  destruct (RFContext_call _ _ w) as [[e|raw] w1] eqn:Hcall; [discriminate|].
  destruct (py_bytes raw) as [e|cells] eqn:Hbytes.
  - rewrite bind_lift_Raise. discriminate.
  - rewrite bind_lift_Return. intros [= <- <-].
    exists cols, rows, raw, cells. repeat split; assumption.
Qed.

(** C6.  [serialize] returns a record exactly when the tile has dimensions
    (cols, rows) and the gateway's [_list_to_bytearray], called on the
    row-major flattened buffer and on cols, rows, answers a byte buffer.
    The record then holds the cell type name and (cols, rows) in
    [cell_context], and in [cell_data] that byte buffer as [cells] and
    [None] as [ref]. *)
Theorem serialize_record `{JVM} (tile : Tile.t) (w w' : world) (record : pyval) :
  TileUDT.serialize tile w = (Return record, w') <->
  exists (cols rows : nat) (raw : pyval) (cells : list byte),
    Tile.dimensions tile = Return [cols; rows] /\
    RFContext_call "_list_to_bytearray"
      [PyList (flatten_tolist (Tile.cells tile));
       PyInt (Z.of_nat cols); PyInt (Z.of_nat rows)] w = (Return raw, w') /\
    py_bytes raw = Return cells /\
    record =
      PyList [
        PyList [PyList [PyStr (GTCellType.cell_type_name (Tile.cell_type tile))];
                PyList [PyInt (Z.of_nat cols); PyInt (Z.of_nat rows)]];
        PyList [PyBytes cells; PyNone]].
Proof.
  split.
  - apply serialize_inv.
  - intros (cols & rows & raw & cells & Hdims & Hcall & Hbytes & ->).
    exact (@serialize_returns _ tile [cols; rows] w w' raw cells Hdims Hcall Hbytes).
Qed.

Lemma serialize_record_2x3 :
  @TileUDT.serialize Engine.jvm Engine.tile_2x3 Engine.bound =
    (Return (PyList [
       PyList [PyList [PyStr "int16"]; PyList [PyInt 3; PyInt 2]];
       PyList [PyBytes Engine.bytes_2x3; PyNone]]),
     logged
       [mk_jcall (PyJava 1) "_list_to_bytearray"
          [PyList Engine.flat_2x3; PyInt 3; PyInt 2]] Engine.bound).
Proof.
  apply (proj2 (@serialize_record Engine.jvm Engine.tile_2x3 Engine.bound _ _)).
  exists 3, 2, (PyBytes Engine.bytes_2x3), Engine.bytes_2x3.
  repeat split.
Defined.

(** In the row Spark builds from the record by [sqlType], [cell_data.ref]
    is [None] and [cell_data.cells] is the byte buffer. *)
Lemma serialize_record_fields (name : string) (cols rows : Z) (cells : list byte) :
  (datum <- fromInternal TileUDT.sqlType
              (PyList [PyList [PyList [PyStr name]; PyList [PyInt cols; PyInt rows]];
                       PyList [PyBytes cells; PyNone]]) ;;
   cell_data <- py_getattr datum "cell_data" ;;
   ref <- py_getattr cell_data "ref" ;;
   cells' <- py_getattr cell_data "cells" ;;
   Return (ref, cells'))%res = Return (PyNone, PyBytes cells).
Proof. reflexivity. Qed.

(** ** Reading a datum *)

(** An attribute that is held in the process is read without a word to
    the JVM. *)
Lemma getattr_local `{JVM} (v x : pyval) (name : string) (w : world) :
  py_getattr v name = Return x -> getattr v name w = (Return x, w).
Proof.
  destruct v; cbn; try discriminate; unfold lift; now intros ->.
Qed.

Ltac read_locally H :=
  repeat match type of H with
  | rbind (py_getattr ?v ?n) _ = Return _ =>
      let E := fresh "E" in
      destruct (py_getattr v n) as [?|?] eqn:E; [discriminate H|];
      cbn [rbind] in H;
      repeat erewrite bind_Return by (apply getattr_local; eassumption)
  end.

(** So is a whole datum whose reads all succeed in the process. *)
Lemma read_fields_local `{JVM} (cell_type_field : string) (datum : pyval)
    (fields : pyval * pyval * pyval * pyval) (w : world) :
  TileUDT.read_datum cell_type_field datum = Return fields ->
  TileUDT.read_fields cell_type_field datum w = (Return fields, w).
Proof.
  unfold TileUDT.read_datum, TileUDT.read_fields. intros Hread.
  read_locally Hread. now injection Hread as <-.
Qed.

(** ** The tile codec: failures of the gateway *)

(** The log grows by at most one call across the shim. *)
Lemma RFContext_call_log `{JVM} (name : string) (args : list pyval)
    (w w' : world) (r : result pyval) :
  RFContext_call name args w = (r, w') ->
  length (io_log w') <= S (length (io_log w)).
Proof.
  intros Hcall. destruct (RFContext_call_once _ _ _ Hcall) as [_ [-> | [c ->]]].
  - lia.
  - rewrite List.length_app. cbn. lia.
Qed.

(** C9.  When the gateway call of [serialize] or of [deserialize] fails,
    the method fails with the same exception and in the world the failed
    call left, to which at most that one call was added: nothing catches
    the exception, no second call is made, and the caller gets the
    exception instead of a record or a tile. *)
Theorem codec_gateway_failure_propagates `{Numpy} `{JVM} :
  (forall (tile : Tile.t) (dims : list nat) (w w' : world) (e : exn),
     Tile.dimensions tile = Return dims ->
     RFContext_call "_list_to_bytearray"
       (PyList (flatten_tolist (Tile.cells tile)) :: TileUDT.dims_to_py dims) w
       = (Raise e, w') ->
     TileUDT.serialize tile w = (Raise e, w') /\
     length (io_log w') <= S (length (io_log w))) /\
  (forall (datum name cols rows cells : pyval) (w w' : world) (e : exn),
     TileUDT.read_datum "cellType" datum = Return (name, cols, rows, cells) ->
     RFContext_call "_bytearray_to_list" [cells; name; cols; rows] w
       = (Raise e, w') ->
     TileUDT.deserialize datum w = (Raise e, w') /\
     length (io_log w') <= S (length (io_log w))).
Proof.
  split.
  - intros tile dims w w' e Hdims Hcall. split.
    + unfold TileUDT.serialize.
      rewrite Hdims, !bind_lift_Return. now apply bind_Raise.
    + exact (RFContext_call_log _ _ _ Hcall).
  - intros datum name cols rows cells w w' e Hread Hcall. split.
    + unfold TileUDT.deserialize, TileUDT.deserialize_reading.
      erewrite bind_Return by (apply read_fields_local; exact Hread).
      now apply bind_Raise.
    + exact (RFContext_call_log _ _ _ Hcall).
Qed.

Lemma codec_gateway_failure_propagates_unreachable :
  @TileUDT.serialize Engine.unreachable_jvm Engine.tile_2x3 Engine.bound =
    (Raise (RemoteCallError "py4j.protocol.Py4JNetworkError"),
     logged
       [mk_jcall (PyJava 1) "_list_to_bytearray"
          [PyList Engine.flat_2x3; PyInt 3; PyInt 2]] Engine.bound) /\
  @TileUDT.deserialize Engine.numpy Engine.unreachable_jvm
    (Engine.datum_2x3 Engine.bytes_2x3) Engine.bound =
    (Raise (RemoteCallError "py4j.protocol.Py4JNetworkError"),
     logged
       [mk_jcall (PyJava 1) "_bytearray_to_list"
          [PyBytes Engine.bytes_2x3; PyStr "int16"; PyInt 3; PyInt 2]]
       Engine.bound).
Proof.
  destruct (@codec_gateway_failure_propagates Engine.numpy Engine.unreachable_jvm)
    as [Hser Hdes].
  split.
  - apply (Hser Engine.tile_2x3 [3; 2]); reflexivity.
  - apply (Hdes (Engine.datum_2x3 Engine.bytes_2x3)
             (PyStr "int16") (PyInt 3) (PyInt 2) (PyBytes Engine.bytes_2x3));
      reflexivity.
Defined.

(** With no engine context bound the shim fails before any call is sent,
    and that failure too reaches the caller of [serialize] as it is. *)
Example serialize_without_context :
  @TileUDT.serialize Engine.jvm Engine.tile_2x3 Engine.unbound =
    (Raise NoActiveContext, Engine.unbound).
Proof. reflexivity. Qed.

(** ** The tile codec: the round trip *)

(** [deserialize] reads attributes: handed the list [serialize] returns,
    rather than the row Spark makes of it, it fails at the first read. *)
Lemma deserialize_of_list `{Numpy} `{JVM} (l : list pyval) (w : world) :
  TileUDT.deserialize (PyList l) w = (Raise (AttributeError "cell_context"), w).
Proof. reflexivity. Qed.

(** Whenever [serialize] returns, the row built from its record by the
    declared [sqlType] names the cell type [cell_type], and [deserialize]
    fails reading [cellType], before it calls the gateway. *)
Lemma roundtrip_reads_undeclared_field `{Numpy} `{JVM}
    (tile : Tile.t) (w w' : world) (internal : pyval) :
  TileUDT.serialize tile w = (Return internal, w') ->
  TileUDT.roundtrip tile w = (Raise (AttributeError "cellType"), w').
Proof.
  intros Hser.
  destruct (serialize_inv _ _ Hser) as (cols & rows & raw & cells & _ & _ & _ & ->).
  unfold TileUDT.roundtrip, TileUDT.roundtrip_reading.
  erewrite bind_Return by exact Hser. reflexivity.
Qed.

(** C1, at the tile [[1, 2, 3], [4, 5, 6]] of 16-bit integers, with a
    gateway whose two conversions are inverse to each other on its cells:
    [serialize] succeeds, and [deserialize] of the row built from the
    record raises [AttributeError], because it reads the field [cellType]
    where the schema the codec declares has [cell_type].  The round trip
    returns no tile. *)
Theorem roundtrip_2x3_raises :
  @TileUDT.gateway_inverse_on Engine.jvm (PyJava 1)
     Engine.flat_2x3 (PyStr "int16") [PyInt 3; PyInt 2] /\
  @TileUDT.roundtrip Engine.numpy Engine.jvm Engine.tile_2x3 Engine.bound =
    (Raise (AttributeError "cellType"),
     logged
       [mk_jcall (PyJava 1) "_list_to_bytearray"
          [PyList Engine.flat_2x3; PyInt 3; PyInt 2]] Engine.bound).
Proof.
  split.
  - exists Engine.bytes_2x3. split; reflexivity.
  - reflexivity.
Qed.

(** The shim in a process with a bound context: one logged call. *)
Lemma RFContext_call_bound `{JVM} (name : string) (args : list pyval)
    (w : world) (sc : SparkContext) (ctx : RFContext.t) (k : nat) :
  _active_spark_context w = Some sc ->
  _rf_context sc = Some ctx ->
  RFContext._jrfctx ctx = PyJava k ->
  RFContext_call name args w =
    (match jvm_invoke (mk_jcall (PyJava k) name args) with
     | JReturn v => Return v
     | JRaise msg => Raise (RemoteCallError msg)
     end,
     logged [mk_jcall (PyJava k) name args] w).
Proof.
  intros Hsc Hctx Hk. unfold RFContext_call, py4j_call.
  rewrite Hsc, Hctx, Hk. now destruct (jvm_invoke _).
Qed.

Lemma np_reshape2_exact (a : ndarray) (rows cols : nat) :
  length (nd_data a) = rows * cols ->
  np_reshape2 a (Z.of_nat rows) (Z.of_nat cols) =
    Return (mk_ndarray (nd_dtype a) [rows; cols] (nd_data a)).
Proof.
  intros Hlen. unfold np_reshape2. rewrite Hlen, Nat2Z.inj_mul.
  assert (Hr : (Z.of_nat rows <? 0)%Z = false) by (apply Z.ltb_ge; lia).
  assert (Hc : (Z.of_nat cols <? 0)%Z = false) by (apply Z.ltb_ge; lia).
  rewrite Hr, Hc, Z.eqb_refl. cbn. now rewrite !Nat2Z.id.
Qed.

(** No canonical name of numpy ends in ["raw"] or contains ["ud"]: the
    cell type derived from a buffer resolves by numpy alone. *)
Lemma to_numpy_dtype_canonical `{Numpy} (d : dtype) :
  GTCellType.to_numpy_dtype (GTCellType.from_numpy_dtype d) = np_dtype (dtype_str d).
Proof. apply to_numpy_dtype_plain; now destruct d. Qed.

(** The round trip the specification describes holds once [deserialize]
    reads the cell type under the name the schema declares: for a tile
    made from a (rows, cols) buffer of element type [d], if the gateway's
    conversions are inverse to each other on its cells, numpy knows [d] by
    its own name, and converting the list of cells to an array of type [d]
    gives the cells back, then the tile comes back, buffer and cell type. *)
Lemma roundtrip_reading_declared_field `{Numpy} `{JVM}
    (d : dtype) (rows cols : nat) (data : list pyval) (arr : ndarray)
    (w : world) (sc : SparkContext) (ctx : RFContext.t) (k : nat) :
  _active_spark_context w = Some sc ->
  _rf_context sc = Some ctx ->
  RFContext._jrfctx ctx = PyJava k ->
  TileUDT.gateway_inverse_on (PyJava k) data (PyStr (dtype_str d))
    [PyInt (Z.of_nat cols); PyInt (Z.of_nat rows)] ->
  np_dtype (dtype_str d) = Return d ->
  np_asarray data = Return arr ->
  length (nd_data arr) = rows * cols ->
  np_astype (mk_ndarray (nd_dtype arr) [rows; cols] (nd_data arr)) d
    = Return (mk_ndarray d [rows; cols] data) ->
  exists w',
    TileUDT.roundtrip_reading "cell_type"
      (Tile.__init__ (mk_ndarray d [rows; cols] data)) w
    = (Return (Tile.__init__ (mk_ndarray d [rows; cols] data)), w').
Proof.
  intros Hsc Hctx Hk (cells & Henc & Hdec) Hname Harr Hsize Hcast.
  eexists. unfold TileUDT.roundtrip_reading.
  erewrite bind_Return.
  2: { eapply (@serialize_returns _ _ [cols; rows]).
       - reflexivity.
       - cbn [Tile.cells Tile.__init__ flatten_tolist nd_data TileUDT.dims_to_py map].
         rewrite (RFContext_call_bound _ _ _ Hsc Hctx Hk), Henc. reflexivity.
       - reflexivity. }
  cbn [Tile.cell_type Tile.__init__ GTCellType.from_numpy_dtype
       GTCellType.cell_type_name nd_dtype].
  unfold TileUDT.deserialize_reading.
  change (fromInternal TileUDT.sqlType _) with
    (Return (A := pyval) (PyRow [
       ("cell_context", PyRow [
          ("cell_type", PyRow [("cellTypeName", PyStr (dtype_str d))]);
          ("dimensions", PyRow [("cols", PyInt (Z.of_nat cols));
                                ("rows", PyInt (Z.of_nat rows))])]);
       ("cell_data", PyRow [("cells", PyBytes cells); ("ref", PyNone)])])).
  rewrite bind_lift_Return.
  erewrite bind_Return by (apply read_fields_local; reflexivity).
  cbv iota beta.
  erewrite bind_Return.
  2: { rewrite (RFContext_call_bound _ _ (logged _ w) (sc := sc) Hsc Hctx Hk), Hdec.
       reflexivity. }
  cbn [py_list]. rewrite bind_lift_Return, Harr, bind_lift_Return.
  cbn [TileUDT.py_index]. rewrite !bind_lift_Return.
  rewrite (np_reshape2_exact _ _ _ Hsize), bind_lift_Return.
  cbn [TileUDT.to_numpy_dtype_of].
  change (GTCellType.__init__ (dtype_str d)) with (GTCellType.from_numpy_dtype d).
  rewrite to_numpy_dtype_canonical, Hname, bind_lift_Return.
  rewrite Hcast, bind_lift_Return. reflexivity.
Qed.

(** The engine of the examples meets those conditions at the 2 x 3 tile. *)
Example roundtrip_reading_declared_field_2x3 :
  @TileUDT.roundtrip_reading Engine.numpy Engine.jvm "cell_type"
    Engine.tile_2x3 Engine.bound
  = (Return Engine.tile_2x3,
     logged
       [mk_jcall (PyJava 1) "_list_to_bytearray"
          [PyList Engine.flat_2x3; PyInt 3; PyInt 2];
        mk_jcall (PyJava 1) "_bytearray_to_list"
          [PyBytes Engine.bytes_2x3; PyStr "int16"; PyInt 3; PyInt 2]]
       Engine.bound).
Proof. reflexivity. Qed.

(** On a row that does name the cell type [cellType], [deserialize] as
    written rebuilds the tile. *)
Example deserialize_cellType_row :
  @TileUDT.deserialize Engine.numpy Engine.jvm
    (Engine.datum_2x3 Engine.bytes_2x3) Engine.bound
  = (Return Engine.tile_2x3,
     logged
       [mk_jcall (PyJava 1) "_bytearray_to_list"
          [PyBytes Engine.bytes_2x3; PyStr "int16"; PyInt 3; PyInt 2]]
       Engine.bound).
Proof. reflexivity. Qed.

(** ** The frame facade *)

Lemma active_rf_context_unbound (w : world) :
  no_bound_context w ->
  active_rf_context w = (Raise (AttributeError "_rf_context"), w).
Proof.
  unfold no_bound_context, active_rf_context.
  destruct (_active_spark_context w) as [sc|]; [|reflexivity].
  now intros ->.
Qed.

Lemma py4j_call_java `{JVM} (k : nat) (method : string) (args : list pyval) (w : world) :
  py4j_call (PyJava k) method args w =
    (match jvm_invoke (mk_jcall (PyJava k) method args) with
     | JReturn v => Return v
     | JRaise msg => Raise (RemoteCallError msg)
     end,
     logged [mk_jcall (PyJava k) method args] w).
Proof. unfold py4j_call. now destruct (jvm_invoke _). Qed.

(** With no active Spark context, [tileColumns] of a frame still calls the
    engine through the context the frame holds: it returns the columns the
    engine answers, and when the engine cannot be reached it fails with the
    error of the call, after the call was sent.  Not every accessor raises
    before remote I/O. *)
Lemma tileColumns_without_context :
  no_bound_context Engine.unbound /\
  @RasterFrame.invoke Engine.jvm Engine.builtins
     RasterFrame.TileColumns Engine.frame Engine.unbound
  = (Return (RasterFrame.Value (PyList [PyColumn (PyJava 7)])),
     logged [mk_jcall (PyJava 1) "tileColumns" [PyJava 10]] Engine.unbound) /\
  @RasterFrame.invoke Engine.unreachable_jvm Engine.builtins
     RasterFrame.TileColumns Engine.frame Engine.unbound
  = (Raise (RemoteCallError "py4j.protocol.Py4JNetworkError"),
     logged [mk_jcall (PyJava 1) "tileColumns" [PyJava 10]] Engine.unbound) /\
  ~ (forall (a : RasterFrame.accessor) (self : RasterFrame.t) (w : world),
       no_bound_context w ->
       @RasterFrame.invoke Engine.jvm Engine.builtins a self w
         = (Raise NoActiveContext, w)).
Proof.
  split; [exact I|]. split; [reflexivity|]. split; [reflexivity|].
  intros Hall.
  specialize (Hall RasterFrame.TileColumns Engine.frame Engine.unbound I).
  discriminate Hall.
Qed.

(** C7, amended.  With no engine context bound in the process, the five
    accessors that look the context up there ([spatialJoin], [withBounds],
    [withCenter], [withCenterLatLng], [withSpatialIndex]) raise, on the
    missing context, before anything is sent to the engine: the world is
    unchanged.  The six others do not consult the process: on a frame that
    holds a context they send their call first thing. *)
Theorem context_accessors_fail_before_io `{JVM} `{Builtins}
    (a : RasterFrame.accessor) (self : RasterFrame.t) (w : world) :
  no_bound_context w ->
  (RasterFrame.reads_active_context a = true ->
   RasterFrame.invoke a self w = (Raise (AttributeError "_rf_context"), w)) /\
  (RasterFrame.reads_active_context a = false ->
   forall k : nat, RasterFrame._jrfctx self = PyJava k ->
   exists rest : list jcall,
     io_log (snd (RasterFrame.invoke a self w)) =
     (io_log w ++
      mk_jcall (PyJava k) (RasterFrame.method_of a)
        (RasterFrame._jdf self :: RasterFrame.args_of a) :: rest)%list).
Proof.
  intros Hunbound. split.
  - intros Hreads.
    destruct a; try discriminate Hreads; cbn [RasterFrame.invoke];
      unfold RasterFrame.spatialJoin, RasterFrame.withBounds, RasterFrame.withCenter,
        RasterFrame.withCenterLatLng, RasterFrame.withSpatialIndex;
      apply bind_Raise; now apply active_rf_context_unbound.
  - intros Hreads k Hk.
    destruct a; try discriminate Hreads;
      cbn [RasterFrame.invoke RasterFrame.method_of RasterFrame.args_of];
      unfold RasterFrame.tileColumns, RasterFrame.spatialKeyColumn,
        RasterFrame.temporalKeyColumn, RasterFrame.tileLayerMetadata,
        RasterFrame.toIntRaster, RasterFrame.toDoubleRaster;
      rewrite Hk; unfold bind at 1; rewrite py4j_call_java;
      destruct (jvm_invoke _) as [v|msg]; cbv [Return Raise];
      try (now exists []).
    + (* tileColumns *)
      cbv [bind lift ret Return]. destruct (py_list v); now exists [].
    + (* tileLayerMetadata: str() of a JavaObject is one more call *)
      unfold py_str.
      destruct v;
        try (cbv [bind lift ret Return]; destruct (json_loads _); now exists []).
      unfold bind at 1 2. rewrite py4j_call_java.
      destruct (jvm_invoke _) as [r|msg']; cbv [Return Raise].
      * destruct r; cbv [bind lift ret raise Return Raise];
          try destruct (json_loads _);
          cbn [snd io_log logged]; rewrite <- app_assoc; now eexists.
      * cbn [snd io_log logged]. rewrite <- app_assoc. now eexists.
Qed.

Lemma context_accessors_fail_before_io_unbound :
  no_bound_context Engine.unbound /\
  @RasterFrame.invoke Engine.jvm Engine.builtins
     RasterFrame.WithBounds Engine.frame Engine.unbound
  = (Raise (AttributeError "_rf_context"), Engine.unbound) /\
  exists rest : list jcall,
    io_log (snd (@RasterFrame.invoke Engine.jvm Engine.builtins
                   RasterFrame.TileColumns Engine.frame Engine.unbound)) =
    (io_log Engine.unbound ++
     mk_jcall (PyJava 1) "tileColumns" [PyJava 10] :: rest)%list.
Proof.
  split; [exact I|]. split.
  - apply (@context_accessors_fail_before_io Engine.jvm Engine.builtins
             RasterFrame.WithBounds Engine.frame Engine.unbound I).
    reflexivity.
  - apply (proj2 (@context_accessors_fail_before_io Engine.jvm Engine.builtins
                    RasterFrame.TileColumns Engine.frame Engine.unbound I)
             eq_refl 1 eq_refl).
Defined.

(** C8.  [temporalKeyColumn] sends one call to the engine.  When the
    engine answers [None], as it does for a frame without a temporal key,
    the accessor returns [None] and raises nothing; when the engine
    answers a column handle, the accessor returns it wrapped as a Column. *)
Theorem temporalKeyColumn_optional `{JVM} `{Builtins}
    (self : RasterFrame.t) (k : nat) (w : world) :
  RasterFrame._jrfctx self = PyJava k ->
  (jvm_invoke (mk_jcall (PyJava k) "temporalKeyColumn" [RasterFrame._jdf self])
     = JReturn PyNone ->
   RasterFrame.temporalKeyColumn self w =
     (Return (RasterFrame.Value PyNone),
      logged
        [mk_jcall (PyJava k) "temporalKeyColumn" [RasterFrame._jdf self]] w)) /\
  (forall h : nat,
   jvm_invoke (mk_jcall (PyJava k) "temporalKeyColumn" [RasterFrame._jdf self])
     = JReturn (PyJava h) ->
   RasterFrame.temporalKeyColumn self w =
     (Return (RasterFrame.Value (PyColumn (PyJava h))),
      logged
        [mk_jcall (PyJava k) "temporalKeyColumn" [RasterFrame._jdf self]] w)).
Proof.
  intros Hk. unfold RasterFrame.temporalKeyColumn. rewrite Hk.
  split; [intros Hnone | intros h Hcol];
    unfold bind; rewrite py4j_call_java;
    [rewrite Hnone | rewrite Hcol]; reflexivity.
Qed.

Lemma temporalKeyColumn_optional_frames :
  @RasterFrame.temporalKeyColumn Engine.jvm Engine.frame0 Engine.bound =
    (Return (RasterFrame.Value PyNone),
     logged [mk_jcall (PyJava 1) "temporalKeyColumn" [PyJava 0]] Engine.bound) /\
  @RasterFrame.temporalKeyColumn Engine.jvm Engine.frame Engine.bound =
    (Return (RasterFrame.Value (PyColumn (PyJava 1010))),
     logged [mk_jcall (PyJava 1) "temporalKeyColumn" [PyJava 10]] Engine.bound).
Proof.
  split.
  - apply (proj1 (@temporalKeyColumn_optional Engine.jvm Engine.builtins
                    Engine.frame0 1 Engine.bound eq_refl)).
    reflexivity.
  - apply (proj2 (@temporalKeyColumn_optional Engine.jvm Engine.builtins
                    Engine.frame 1 Engine.bound eq_refl) 1010).
    reflexivity.
Defined.

(** ** The engine of the examples *)

Lemma Z_of_byte_of_Z (z : Z) : Engine.Z_of_byte (Engine.byte_of_Z z) = (z mod 256)%Z.
Proof.
  unfold Engine.Z_of_byte, Engine.byte_of_Z.
  assert (Hrange : (0 <= z mod 256 < 256)%Z) by (apply Z.mod_pos_bound; lia).
  destruct (Byte.of_N (Z.to_N (z mod 256))) as [b|] eqn:Hb.
  - rewrite (Byte.to_of_N _ Hb). lia.
  - apply Byte.of_N_None_iff in Hb. lia.
Qed.

(** Four big-endian bytes hold a 32-bit integer. *)
Lemma decode_encode_int32 (z : Z) :
  (- 2 ^ 31 <= z < 2 ^ 31)%Z ->
  Engine.wrap true 32
    (Z.shiftl (Z.shiftr z 24 mod 256) 24 + Z.shiftl (Z.shiftr z 16 mod 256) 16
     + Z.shiftl (Z.shiftr z 8 mod 256) 8 + z mod 256)%Z = z.
Proof.
  intros Hz. unfold Engine.wrap.
  rewrite !Z.shiftr_div_pow2, !Z.shiftl_mul_pow2 by lia.
  change (2 ^ 24)%Z with 16777216%Z. change (2 ^ 16)%Z with 65536%Z.
  change (2 ^ 8)%Z with 256%Z. change (2 ^ (32 - 1))%Z with 2147483648%Z.
  change (2 ^ 32)%Z with 4294967296%Z. change (2 ^ 31)%Z with 2147483648%Z in Hz.
  Z.div_mod_to_equations. lia.
Qed.

Lemma decode_encode_cells (flat : list pyval) :
  forall (cells : list byte) (fuel : nat),
  Engine.encode_cells flat = Some cells ->
  length flat <= fuel ->
  Engine.decode_cells fuel cells = Some flat.
Proof.
  induction flat as [|v flat IH]; intros cells fuel Henc Hfuel; cbn in Henc.
  - injection Henc as <-. now destruct fuel.
  - destruct v as [| |z| | | | | | | | |]; try discriminate Henc.
    cbn [Engine.encode_cell] in Henc.
    destruct ((- 2 ^ 31 <=? z) && (z <? 2 ^ 31))%Z eqn:Hz; [|discriminate Henc].
    destruct (Engine.encode_cells flat) as [rest|] eqn:Hrest; [|discriminate Henc].
    injection Henc as <-.
    destruct fuel as [|fuel]; [cbn in Hfuel; lia|].
    cbn [Engine.encode_int32 app Engine.decode_cells].
    rewrite (IH rest fuel eq_refl) by (cbn in Hfuel; lia).
    rewrite !Z_of_byte_of_Z, decode_encode_int32; [reflexivity|].
    apply andb_prop in Hz. destruct Hz as [Hlo Hhi].
    apply Z.leb_le in Hlo. apply Z.ltb_lt in Hhi. lia.
Qed.

Lemma encode_cells_length (flat : list pyval) :
  forall cells, Engine.encode_cells flat = Some cells ->
  length cells = 4 * length flat.
Proof.
  induction flat as [|v flat IH]; intros cells Henc; cbn in Henc.
  - now injection Henc as <-.
  - destruct (Engine.encode_cell v) as [b|] eqn:Hb; [|discriminate Henc].
    destruct (Engine.encode_cells flat) as [rest|]; [|discriminate Henc].
    injection Henc as <-.
    destruct v as [| |z| | | | | | | | |]; try discriminate Hb.
    cbn [Engine.encode_cell] in Hb.
    destruct ((- 2 ^ 31 <=? z) && (z <? 2 ^ 31))%Z; [|discriminate Hb].
    injection Hb as <-. cbn [Engine.encode_int32 app length].
    rewrite (IH rest eq_refl). lia.
Qed.

(** The conversions of the engine are inverse to each other: whatever
    [_list_to_bytearray] makes of a list, [_bytearray_to_list] turns back
    into it, under any cell type name. *)
Lemma Engine_conversions_inverse
    (target : pyval) (flat : list pyval) (cols rows name : pyval) (cells : list byte) :
  @jvm_invoke Engine.jvm (mk_jcall target "_list_to_bytearray" [PyList flat; cols; rows])
    = JReturn (PyBytes cells) ->
  @jvm_invoke Engine.jvm
     (mk_jcall target "_bytearray_to_list" [PyBytes cells; name; cols; rows])
    = JReturn (PyList flat).
Proof.
  cbn. destruct (Engine.encode_cells flat) as [b|] eqn:Henc; [|discriminate].
  intros [= <-].
  rewrite (decode_encode_cells flat (fuel := length b) Henc); [reflexivity|].
  rewrite (encode_cells_length _ Henc). lia.
Qed.

(** * Further properties *)

(** ** The engine of the examples meets the laws of numpy *)

Lemma Engine_dtype_names_resolve : @dtype_names_resolve Engine.numpy.
Proof. intros d. now destruct d. Qed.

Lemma Engine_astype_keeps_shape : @astype_keeps_shape Engine.numpy.
Proof.
  intros a a' d. cbn.
  destruct (Engine.traverse (Engine.cast_to d) (nd_data a)) as [e|data]; cbn.
  - discriminate.
  - intros [= <-]. now split.
Qed.

(** ** Tile.dimensions *)

Lemma Tile_dimensions_axes (tile : Tile.t) (rows cols : nat) (rest : list nat) :
  nd_shape (Tile.cells tile) = rows :: cols :: rest ->
  Tile.dimensions tile = Return [cols; rows].
Proof. unfold Tile.dimensions. now intros ->. Qed.

Lemma Tile_dimensions_short (tile : Tile.t) :
  length (nd_shape (Tile.cells tile)) < 2 ->
  Tile.dimensions tile = Raise IndexError.
Proof.
  unfold Tile.dimensions.
  destruct (nd_shape (Tile.cells tile)) as [|rows [|cols rest]]; cbn;
    intros Hlen; try reflexivity; lia.
Qed.

(** X1.  [dimensions] returns exactly when the buffer has at least two
    axes, and then gives the second axis followed by the first, whatever
    axes follow; on a buffer with fewer axes it raises [IndexError]. *)
Theorem Tile_dimensions_iff (tile : Tile.t) :
  (forall dims : list nat,
     Tile.dimensions tile = Return dims <->
     exists (rows cols : nat) (rest : list nat),
       nd_shape (Tile.cells tile) = rows :: cols :: rest /\ dims = [cols; rows]) /\
  (forall e : exn,
     Tile.dimensions tile = Raise e <->
     length (nd_shape (Tile.cells tile)) < 2 /\ e = IndexError).
Proof.
  unfold Tile.dimensions.
  destruct (nd_shape (Tile.cells tile)) as [|rows [|cols rest]]; cbn; split.
  - intros dims. split; [discriminate | intros (? & ? & ? & [=] & _)].
  - intros e. split; [intros [= <-]; split; [lia | reflexivity] | intros [_ ->]; reflexivity].
  - intros dims. split; [discriminate | intros (? & ? & ? & [=] & _)].
  - intros e. split; [intros [= <-]; split; [lia | reflexivity] | intros [_ ->]; reflexivity].
  - intros dims. split.
    + intros [= <-]. now exists rows, cols, rest.
    + intros (r & c & rest' & [= -> -> ->] & ->). reflexivity.
  - intros e. split; [discriminate | intros [Hlen _]; lia].
Qed.

Lemma Tile_dimensions_iff_3d :
  Tile.dimensions (Tile.__init__ (mk_ndarray np_uint8 [2; 3; 4] [])) = Return [3; 2] /\
  Tile.dimensions (Tile.__init__ (mk_ndarray np_uint8 [6] [])) = Raise IndexError.
Proof.
  split.
  - apply (proj1 (Tile_dimensions_iff _)). now exists 2, 3, [4].
  - apply (proj2 (Tile_dimensions_iff _)). split; [cbn; lia | reflexivity].
Defined.

(** ** The cell-type registry *)

(** X2.  The cell type a tile derives from its buffer resolves back to the
    buffer's element type, provided numpy knows each element type by its
    own name: no canonical name carries a ["raw"] suffix or the marker. *)
Theorem Tile_cell_type_resolves `{Numpy} (cells : ndarray) :
  dtype_names_resolve ->
  GTCellType.to_numpy_dtype (Tile.cell_type (Tile.__init__ cells))
    = Return (nd_dtype cells).
Proof.
  intros Hnames. cbn [Tile.cell_type Tile.__init__].
  now rewrite to_numpy_dtype_canonical.
Qed.

Lemma Tile_cell_type_resolves_2x3 :
  @dtype_names_resolve Engine.numpy /\
  @GTCellType.to_numpy_dtype Engine.numpy (Tile.cell_type Engine.tile_2x3)
    = Return np_int16.
Proof.
  split; [exact Engine_dtype_names_resolve|].
  exact (@Tile_cell_type_resolves Engine.numpy _ Engine_dtype_names_resolve).
Defined.

(** X3.  [__eq__] is an equivalence on cell types: reflexive, symmetric
    and transitive. *)
Theorem GTCellType_eq_equivalence :
  (forall a : GTCellType.t, GTCellType.__eq__ a (GTCellType.to_py a) = true) /\
  (forall a b : GTCellType.t,
     GTCellType.__eq__ a (GTCellType.to_py b) = GTCellType.__eq__ b (GTCellType.to_py a)) /\
  (forall a b c : GTCellType.t,
     GTCellType.__eq__ a (GTCellType.to_py b) = true ->
     GTCellType.__eq__ b (GTCellType.to_py c) = true ->
     GTCellType.__eq__ a (GTCellType.to_py c) = true).
Proof.
  split; [|split].
  - intros a. cbn. apply String.eqb_refl.
  - intros a b. cbn. apply String.eqb_sym.
  - intros a b c. cbn. intros Hab Hbc.
    apply String.eqb_eq in Hab. apply String.eqb_eq in Hbc.
    apply String.eqb_eq. congruence.
Qed.

Lemma GTCellType_eq_equivalence_uint8 :
  GTCellType.__eq__ (GTCellType.from_numpy_dtype np_uint8)
    (GTCellType.to_py (GTCellType.__init__ "uint8")) = true.
Proof.
  apply (proj2 (proj2 GTCellType_eq_equivalence)
           (GTCellType.from_numpy_dtype np_uint8) (GTCellType.__init__ "uint8")
           (GTCellType.__init__ "uint8"));
    reflexivity.
Defined.

(** X4.  [from_numpy_dtype] keeps element types apart: the cell types of
    two element types are equal exactly when the element types are. *)
Theorem from_numpy_dtype_injective (d1 d2 : dtype) :
  GTCellType.__eq__ (GTCellType.from_numpy_dtype d1)
    (GTCellType.to_py (GTCellType.from_numpy_dtype d2)) = true <-> d1 = d2.
Proof.
  split.
  - destruct d1, d2; cbn; intros Heq; try reflexivity; discriminate Heq.
  - intros <-. cbn. apply String.eqb_refl.
Qed.

Lemma from_numpy_dtype_injective_int16 :
  np_int16 = np_int16 /\
  GTCellType.__eq__ (GTCellType.from_numpy_dtype np_int16)
    (GTCellType.to_py (GTCellType.from_numpy_dtype np_uint16)) = false.
Proof.
  split.
  - apply (proj1 (from_numpy_dtype_injective np_int16 np_int16)). reflexivity.
  - reflexivity.
Defined.

Lemma with_raw_length (n : nat) (name : string) :
  String.length (with_raw n name) = String.length name + 3 * n.
Proof.
  induction n as [|n IH]; [cbn; lia|].
  change (with_raw (S n) name) with (with_raw n name ++ "raw").
  rewrite string_length_app, IH. cbn [String.length]. lia.
Qed.

(** X5.  What [to_numpy_dtype] does with any name: the name is some base
    that does not end in ["raw"], followed by a number of ["raw"]
    suffixes; the method raises for a base with the marker ["ud"], and
    otherwise gives the base, and nothing but the base, to numpy. *)
Theorem to_numpy_dtype_characterized `{Numpy} (self : GTCellType.t) :
  exists (base : string) (n : nat),
    GTCellType.cell_type_name self = with_raw n base /\
    endswith base "raw" = false /\
    GTCellType.to_numpy_dtype self =
      if py_in "ud" base then Raise GTCellType.UnsupportedFeature else np_dtype base.
Proof.
  funelim (GTCellType.to_numpy_dtype self).
  - match goal with IH : exists _ _, _ |- _ => destruct IH as (base & n & Hname & Hbase & Hres) end.
    cbn [GTCellType.cell_type_name] in Hname.
    exists base, (S n). split; [|split; [exact Hbase | exact Hres]].
    rewrite (endswith_split _ _ Hraw). cbn [String.length].
    now rewrite Hname.
  - exists (GTCellType.cell_type_name self), 0. split; [reflexivity|]. now split.
Qed.

(** X6.  The ["raw"] suffix does not survive a pass through numpy: a
    canonical name with suffixes resolves to the element type of the bare
    name, and the cell type derived back from that element type is not
    equal to the one resolved. *)
Theorem raw_suffix_is_forgotten `{Numpy} (d : dtype) (n : nat) :
  dtype_names_resolve -> 0 < n ->
  GTCellType.to_numpy_dtype (GTCellType.__init__ (with_raw n (dtype_str d)))
    = Return d /\
  GTCellType.__eq__ (GTCellType.from_numpy_dtype d)
    (GTCellType.to_py (GTCellType.__init__ (with_raw n (dtype_str d)))) = false.
Proof.
  intros Hnames Hn. split.
  - unfold with_raw. rewrite to_numpy_dtype_raw_iter.
    change (GTCellType.__init__ (dtype_str d)) with (GTCellType.from_numpy_dtype d).
    now rewrite to_numpy_dtype_canonical.
  - cbn. apply String.eqb_neq. intros Heq.
    apply (f_equal String.length) in Heq. rewrite with_raw_length in Heq. lia.
Qed.

Lemma raw_suffix_is_forgotten_int8raw :
  @dtype_names_resolve Engine.numpy /\ 0 < 1 /\
  @GTCellType.to_numpy_dtype Engine.numpy (GTCellType.__init__ "int8raw")
    = Return np_int8 /\
  GTCellType.__eq__ (GTCellType.from_numpy_dtype np_int8) (PyCellType "int8raw") = false.
Proof.
  split; [exact Engine_dtype_names_resolve|]. split; [lia|].
  apply (@raw_suffix_is_forgotten Engine.numpy np_int8 1 Engine_dtype_names_resolve).
  lia.
Defined.

(** ** The tile codec: serialize *)

(** X7.  For a buffer with fewer than two axes [serialize] raises
    [IndexError] before it calls the gateway: the world is as it was. *)
Theorem serialize_needs_two_axes `{JVM} (tile : Tile.t) (w : world) :
  length (nd_shape (Tile.cells tile)) < 2 ->
  TileUDT.serialize tile w = (Raise IndexError, w).
Proof.
  intros Hlen. unfold TileUDT.serialize.
  rewrite (Tile_dimensions_short tile Hlen). reflexivity.
Qed.

Lemma serialize_needs_two_axes_1d :
  length (nd_shape (mk_ndarray np_int16 [6] [])) < 2 /\
  @TileUDT.serialize Engine.jvm (Tile.__init__ (mk_ndarray np_int16 [6] []))
    Engine.bound = (Raise IndexError, Engine.bound).
Proof.
  split; [cbn; lia|].
  apply (@serialize_needs_two_axes Engine.jvm). cbn. lia.
Defined.

(** X8.  With an engine context bound, [serialize] of a tile that has
    dimensions sends exactly one call, [_list_to_bytearray] on the
    flattened cells and cols, rows, whether it then returns a record or
    fails. *)
Theorem serialize_sends_one_call `{JVM} (tile : Tile.t) (rows cols : nat)
    (rest : list nat) (k : nat) (session : SparkSession) (w : world) :
  bound_to k session w ->
  nd_shape (Tile.cells tile) = rows :: cols :: rest ->
  snd (TileUDT.serialize tile w) =
    logged [mk_jcall (PyJava k) "_list_to_bytearray"
              [PyList (flatten_tolist (Tile.cells tile));
               PyInt (Z.of_nat cols); PyInt (Z.of_nat rows)]] w.
Proof.
  intros Hbound Hshape. unfold TileUDT.serialize.
  rewrite (Tile_dimensions_axes tile Hshape).
  rewrite !bind_lift_Return. cbn [TileUDT.dims_to_py map]. unfold bind at 1.
  rewrite (RFContext_call_bound _ _ w Hbound eq_refl eq_refl).
  destruct (jvm_invoke _) as [raw|msg]; [|reflexivity].
  cbv [Return]. destruct (py_bytes raw); reflexivity.
Qed.

Lemma serialize_sends_one_call_2x3 :
  bound_to 1 Engine.session Engine.bound /\
  nd_shape (Tile.cells Engine.tile_2x3) = [2; 3] /\
  snd (@TileUDT.serialize Engine.unreachable_jvm Engine.tile_2x3 Engine.bound) =
    logged [mk_jcall (PyJava 1) "_list_to_bytearray"
              [PyList Engine.flat_2x3; PyInt 3; PyInt 2]] Engine.bound.
Proof.
  split; [reflexivity|]. split; [reflexivity|].
  apply (@serialize_sends_one_call Engine.unreachable_jvm Engine.tile_2x3 2 3 []
           1 Engine.session Engine.bound); reflexivity.
Defined.

(** X9.  When the gateway answers [None] or a [str] instead of bytes,
    [bytearray] rejects the answer: [serialize] raises [TypeError] after
    the call, and returns no record. *)
Theorem serialize_rejects_non_bytes `{JVM} (tile : Tile.t) (dims : list nat)
    (raw : pyval) (w w' : world) :
  Tile.dimensions tile = Return dims ->
  RFContext_call "_list_to_bytearray"
    (PyList (flatten_tolist (Tile.cells tile)) :: TileUDT.dims_to_py dims) w
    = (Return raw, w') ->
  raw = PyNone \/ (exists s, raw = PyStr s) ->
  TileUDT.serialize tile w = (Raise TypeError, w').
Proof.
  intros Hdims Hcall Hraw. unfold TileUDT.serialize.
  rewrite Hdims, !bind_lift_Return.
  erewrite bind_Return by exact Hcall.
  destruct Hraw as [-> | [s ->]]; reflexivity.
Qed.

Lemma serialize_rejects_non_bytes_null :
  Tile.dimensions Engine.tile_2x3 = Return [3; 2] /\
  @TileUDT.serialize null_jvm Engine.tile_2x3 Engine.bound =
    (Raise TypeError,
     logged [mk_jcall (PyJava 1) "_list_to_bytearray"
               [PyList Engine.flat_2x3; PyInt 3; PyInt 2]] Engine.bound).
Proof.
  split; [reflexivity|].
  apply (@serialize_rejects_non_bytes null_jvm Engine.tile_2x3 [3; 2] PyNone);
    [reflexivity | reflexivity | now left].
Defined.



(** ** The tile codec: deserialize *)

(** [deserialize] once the four fields are read. *)
Lemma deserialize_after_reads `{Numpy} `{JVM}
    (datum name cols rows cells : pyval) (w : world) :
  TileUDT.read_datum "cellType" datum = Return (name, cols, rows, cells) ->
  TileUDT.deserialize datum w =
    (raw <- RFContext_call "_bytearray_to_list" [cells; name; cols; rows] ;;
     cell_value_list <- lift (py_list raw) ;;
     arr <- lift (np_asarray cell_value_list) ;;
     r <- lift (TileUDT.py_index rows) ;;
     c <- lift (TileUDT.py_index cols) ;;
     reshaped <- lift (np_reshape2 arr r c) ;;
     dt <- lift (TileUDT.to_numpy_dtype_of name) ;;
     as_numpy <- lift (np_astype reshaped dt) ;;
     ret (Tile.__init__ as_numpy))%py w.
Proof.
  intros Hread. unfold TileUDT.deserialize, TileUDT.deserialize_reading.
  now erewrite bind_Return by (apply read_fields_local; exact Hread).
Qed.

(** Every step behind a tile that [deserialize] returns. *)
Lemma deserialize_inv `{Numpy} `{JVM} (datum : pyval) (w w' : world) (tile : Tile.t) :
  TileUDT.deserialize datum w = (Return tile, w') ->
  exists (name cols rows cells raw : pyval) (w0 : world) (l : list pyval)
         (arr reshaped as_numpy : ndarray) (r c : Z) (dt : dtype),
    TileUDT.read_fields "cellType" datum w = (Return (name, cols, rows, cells), w0) /\
    RFContext_call "_bytearray_to_list" [cells; name; cols; rows] w0 = (Return raw, w') /\
    py_list raw = Return l /\
    np_asarray l = Return arr /\
    TileUDT.py_index rows = Return r /\
    TileUDT.py_index cols = Return c /\
    np_reshape2 arr r c = Return reshaped /\
    TileUDT.to_numpy_dtype_of name = Return dt /\
    np_astype reshaped dt = Return as_numpy /\
    tile = Tile.__init__ as_numpy.
Proof.
  unfold TileUDT.deserialize, TileUDT.deserialize_reading. unfold bind at 1.
  destruct (TileUDT.read_fields "cellType" datum w)
    as [[e|[[[name cols] rows] cells]] w0]; [discriminate|].
  unfold bind at 1.
  destruct (RFContext_call _ _ w0) as [[e|raw] w1] eqn:Hcall; [discriminate|].
  destruct (py_list raw) as [e|l] eqn:Hlist;
    [rewrite bind_lift_Raise; discriminate | rewrite bind_lift_Return].
  destruct (np_asarray l) as [e|arr] eqn:Harr;
    [rewrite bind_lift_Raise; discriminate | rewrite bind_lift_Return].
  destruct (TileUDT.py_index rows) as [e|r] eqn:Hr;
    [rewrite bind_lift_Raise; discriminate | rewrite bind_lift_Return].
  destruct (TileUDT.py_index cols) as [e|c] eqn:Hc;
    [rewrite bind_lift_Raise; discriminate | rewrite bind_lift_Return].
  destruct (np_reshape2 arr r c) as [e|reshaped] eqn:Hreshape;
    [rewrite bind_lift_Raise; discriminate | rewrite bind_lift_Return].
  destruct (TileUDT.to_numpy_dtype_of name) as [e|dt] eqn:Hdt;
    [rewrite bind_lift_Raise; discriminate | rewrite bind_lift_Return].
  destruct (np_astype reshaped dt) as [e|as_numpy] eqn:Hcast;
    [rewrite bind_lift_Raise; discriminate | rewrite bind_lift_Return].
  intros [= <- <-].
  exists name, cols, rows, cells, raw, w0, l, arr, reshaped, as_numpy, r, c, dt.
  repeat split; assumption.
Qed.

(** A field of a Row held in the process is held in the process. *)
Lemma lookup_field_in_process (name : string) (fields : list (string * pyval))
    (x : pyval) :
  in_process (PyRow fields) = true ->
  lookup_field name fields = Some x -> in_process x = true.
Proof.
  induction fields as [|[n v] fields IH]; cbn; [intros _; discriminate|].
  intros Hall. apply andb_prop in Hall. destruct Hall as [Hv Hrest].
  destruct (String.eqb n name).
  - now intros [= <-].
  - now apply IH.
Qed.

Lemma py_getattr_in_process (v x : pyval) (name : string) :
  in_process v = true -> py_getattr v name = Return x -> in_process x = true.
Proof.
  intros Hv Hget.
  destruct v; cbn [py_getattr] in Hget; try discriminate Hget.
  - destruct (prefix "__" name); [discriminate Hget|].
    destruct (lookup_field name fields) as [y|] eqn:Hfield; [|discriminate Hget].
    injection Hget as <-. exact (lookup_field_in_process _ _ Hv Hfield).
  - destruct (String.eqb name "__call__"); [discriminate Hget|].
    now injection Hget as <-.
  - destruct (String.eqb name "cell_type_name"); [|discriminate Hget].
    now injection Hget as <-.
Qed.

Lemma getattr_in_process `{JVM} (v : pyval) (name : string) :
  in_process v = true -> getattr v name = lift (py_getattr v name).
Proof. destruct v; try discriminate; reflexivity. Qed.

Ltac read_in_process v n Hv :=
  rewrite (getattr_in_process v n Hv);
  let x := fresh "x" in
  let E := fresh "E" in
  destruct (py_getattr v n) as [?|x] eqn:E; [reflexivity|];
  rewrite bind_lift_Return; cbn [rbind];
  pose proof (py_getattr_in_process v n Hv E).

(** The reads of a datum held in the process are the reads in the process:
    nothing is sent to the JVM. *)
Lemma read_fields_in_process `{JVM} (cell_type_field : string) (datum : pyval)
    (w : world) :
  in_process datum = true ->
  TileUDT.read_fields cell_type_field datum w =
    (TileUDT.read_datum cell_type_field datum, w).
Proof.
  intros Hdatum. unfold TileUDT.read_fields, TileUDT.read_datum.
  repeat match goal with
  | |- bind (getattr ?v ?n) _ _ = (rbind (py_getattr ?v ?n) _, _) =>
      match goal with
      | Hv : in_process v = true |- _ => read_in_process v n Hv
      end
  | |- bind (lift (inr ?x)) ?k ?w0 = _ =>
      change (bind (lift (inr x)) k w0) with (k x w0); cbv beta
  | Hv : in_process ?v = true, E : py_getattr ?v ?n = inr _
    |- bind (getattr ?v ?n) _ _ = _ =>
      rewrite (getattr_in_process v n Hv), E
  end.
  reflexivity.
Qed.

(** X11.  A datum that cannot be read never reaches the gateway's
    conversion.  When the datum is held in the process and one of the four
    reads fails, [deserialize] raises the error of the read and nothing
    went to the JVM: a value without attributes fails at the first read,
    [cell_context], and a JavaObject, which answers [cell_context] with a
    member, at the second, [cellType].  A Column over a JavaObject is not
    held in the process: its first read asks the JVM for the field
    [cell_context], and when that call fails [deserialize] fails with it,
    after that one call. *)
Theorem deserialize_unreadable_datum `{Numpy} `{JVM} (datum : pyval) (w : world) :
  (forall e : exn,
     in_process datum = true ->
     TileUDT.read_datum "cellType" datum = Raise e ->
     TileUDT.deserialize datum w = (Raise e, w)) /\
  (in_process datum = true ->
   (forall fields, datum <> PyRow fields) -> (forall ref, datum <> PyJava ref) ->
   TileUDT.deserialize datum w = (Raise (AttributeError "cell_context"), w)) /\
  (forall ref : nat,
     datum = PyJava ref ->
     TileUDT.deserialize datum w = (Raise (AttributeError "cellType"), w)) /\
  (forall (ref : nat) (msg : string),
     datum = PyColumn (PyJava ref) ->
     jvm_invoke (mk_jcall (PyJava ref) "apply" [PyStr "cell_context"]) = JRaise msg ->
     TileUDT.deserialize datum w =
       (Raise (RemoteCallError msg),
        logged [mk_jcall (PyJava ref) "apply" [PyStr "cell_context"]] w)).
Proof.
  split; [|split; [|split]].
  - intros e Hdatum Hread.
    unfold TileUDT.deserialize, TileUDT.deserialize_reading.
    apply bind_Raise. now rewrite read_fields_in_process, Hread.
  - intros Hdatum Hrow Hjava.
    destruct datum; try discriminate Hdatum; try reflexivity.
    + now contradiction (Hrow fields).
    + now contradiction (Hjava ref).
  - intros ref ->. reflexivity.
  - intros ref msg -> Hcall.
    unfold TileUDT.deserialize, TileUDT.deserialize_reading.
    apply bind_Raise. unfold TileUDT.read_fields. apply bind_Raise.
    cbn [getattr prefix]. cbn. unfold bind, lift, py_call, py4j_call.
    cbn. now rewrite Hcall.
Qed.

Lemma deserialize_unreadable_datum_examples :
  @TileUDT.deserialize Engine.numpy Engine.jvm
     (PyRow [("cell_context", PyRow [("dimensions", PyNone)])]) Engine.bound
    = (Raise (AttributeError "cellType"), Engine.bound) /\
  @TileUDT.deserialize Engine.numpy Engine.jvm PyNone Engine.bound
    = (Raise (AttributeError "cell_context"), Engine.bound) /\
  @TileUDT.deserialize Engine.numpy Engine.jvm (PyJava 7) Engine.bound
    = (Raise (AttributeError "cellType"), Engine.bound) /\
  @TileUDT.deserialize Engine.numpy Engine.unreachable_jvm
     (PyColumn (PyJava 7)) Engine.bound
    = (Raise (RemoteCallError "py4j.protocol.Py4JNetworkError"),
       logged [mk_jcall (PyJava 7) "apply" [PyStr "cell_context"]] Engine.bound).
Proof.
  split; [|split; [|split]].
  - apply (proj1 (@deserialize_unreadable_datum Engine.numpy Engine.jvm _ _));
      reflexivity.
  - apply (proj1 (proj2 (@deserialize_unreadable_datum Engine.numpy Engine.jvm _ _)));
      [reflexivity | discriminate | discriminate].
  - apply (proj1 (proj2 (proj2
             (@deserialize_unreadable_datum Engine.numpy Engine.jvm _ _))) 7).
    reflexivity.
  - apply (proj2 (proj2 (proj2
             (@deserialize_unreadable_datum Engine.numpy Engine.unreachable_jvm _ _)))
             7 "py4j.protocol.Py4JNetworkError"); reflexivity.
Defined.

(** X12.  [deserialize] never reads [cell_data.ref]: two rows that differ
    only there give the same result, so a tile held by reference is not
    rebuilt from its reference. *)
Theorem deserialize_ignores_ref `{Numpy} `{JVM}
    (cell_context cells ref1 ref2 : pyval) (w : world) :
  TileUDT.deserialize
    (PyRow [("cell_context", cell_context);
            ("cell_data", PyRow [("cells", cells); ("ref", ref1)])]) w =
  TileUDT.deserialize
    (PyRow [("cell_context", cell_context);
            ("cell_data", PyRow [("cells", cells); ("ref", ref2)])]) w.
Proof. reflexivity. Qed.

(** X14.  The tile [deserialize] returns has the cell type of its own
    buffer, as a tile made by the constructor has. *)
Theorem deserialize_cell_type_of_buffer `{Numpy} `{JVM}
    (datum : pyval) (w w' : world) (tile : Tile.t) :
  TileUDT.deserialize datum w = (Return tile, w') ->
  Tile.cell_type tile = GTCellType.from_numpy_dtype (nd_dtype (Tile.cells tile)).
Proof.
  intros Hdes.
  destruct (deserialize_inv _ _ Hdes)
    as (? & ? & ? & ? & ? & ? & ? & ? & ? & as_numpy & ? & ? & ? & H9).
  decompose [and] H9. subst tile. reflexivity.
Qed.

Lemma deserialize_cell_type_of_buffer_2x3 :
  Tile.cell_type Engine.tile_2x3
    = GTCellType.from_numpy_dtype (nd_dtype (Tile.cells Engine.tile_2x3)).
Proof.
  apply (@deserialize_cell_type_of_buffer Engine.numpy Engine.jvm
           (Engine.datum_2x3 Engine.bytes_2x3) Engine.bound
           (logged [mk_jcall (PyJava 1) "_bytearray_to_list"
                      [PyBytes Engine.bytes_2x3; PyStr "int16"; PyInt 3; PyInt 2]]
              Engine.bound)).
  reflexivity.
Defined.

Lemma np_reshape2_shape (a a' : ndarray) (r c : Z) :
  (0 <= r)%Z -> (0 <= c)%Z ->
  np_reshape2 a r c = Return a' ->
  nd_shape a' = [Z.to_nat r; Z.to_nat c] /\ nd_dtype a' = nd_dtype a /\
  nd_data a' = nd_data a /\ Z.of_nat (length (nd_data a)) = (r * c)%Z.
Proof.
  intros Hr Hc. unfold np_reshape2.
  assert (H1 : (r <? 0)%Z = false) by (apply Z.ltb_ge; lia).
  assert (H2 : (c <? 0)%Z = false) by (apply Z.ltb_ge; lia).
  rewrite H1, H2. cbn [orb andb].
  destruct (r * c =? Z.of_nat (length (nd_data a)))%Z eqn:Hsize; [|discriminate].
  intros [= <-]. cbn. apply Z.eqb_eq in Hsize. repeat split. lia.
Qed.

(** X15.  What comes back from [deserialize], when [astype] keeps the
    shape: the tile is cols wide and rows high as the row says, its buffer
    has the element type the row's cell type name resolves to, and its
    cell type carries that element type's own name, so a name with a
    ["raw"] suffix is not the name the tile gets. *)
Theorem deserialize_result_shape `{Numpy} `{JVM}
    (datum name cells : pyval) (cols rows : Z) (w w' : world) (tile : Tile.t) :
  astype_keeps_shape ->
  TileUDT.read_datum "cellType" datum = Return (name, PyInt cols, PyInt rows, cells) ->
  (0 <= cols)%Z -> (0 <= rows)%Z ->
  TileUDT.deserialize datum w = (Return tile, w') ->
  Tile.dimensions tile = Return [Z.to_nat cols; Z.to_nat rows] /\
  TileUDT.to_numpy_dtype_of name = Return (nd_dtype (Tile.cells tile)) /\
  GTCellType.cell_type_name (Tile.cell_type tile)
    = dtype_str (nd_dtype (Tile.cells tile)).
Proof.
  intros Hastype Hread Hcols Hrows Hdes.
  destruct (deserialize_inv _ _ Hdes)
    as (name' & cols' & rows' & cells' & raw & w0 & l & arr & reshaped & as_numpy
        & r & c & dt & Hread' & _ & _ & _ & Hr & Hc & Hreshape & Hdt & Hcast & ->).
  rewrite (read_fields_local _ _ w Hread) in Hread'.
  injection Hread' as <- <- <- <- _.
  cbn in Hr, Hc. injection Hr as <-. injection Hc as <-.
  destruct (np_reshape2_shape _ Hrows Hcols Hreshape) as (Hshape & _).
  destruct (Hastype _ _ _ Hcast) as [Hd Hs].
  cbn [Tile.cells Tile.cell_type Tile.__init__ GTCellType.from_numpy_dtype
       GTCellType.cell_type_name].
  split; [|split; [now rewrite Hd | reflexivity]].
  apply (Tile_dimensions_axes _ (rest := [])). cbn [Tile.cells Tile.__init__].
  now rewrite Hs, Hshape.
Qed.

Lemma deserialize_result_shape_int16raw :
  Tile.dimensions Engine.tile_2x3 = Return [Z.to_nat 3; Z.to_nat 2] /\
  @TileUDT.to_numpy_dtype_of Engine.numpy (PyStr "int16raw")
    = Return (nd_dtype (Tile.cells Engine.tile_2x3)) /\
  GTCellType.cell_type_name (Tile.cell_type Engine.tile_2x3)
    = dtype_str (nd_dtype (Tile.cells Engine.tile_2x3)).
Proof.
  apply (@deserialize_result_shape Engine.numpy Engine.jvm
           (PyRow [
              ("cell_context", PyRow [
                 ("cellType", PyRow [("cellTypeName", PyStr "int16raw")]);
                 ("dimensions", PyRow [("cols", PyInt 3); ("rows", PyInt 2)])]);
              ("cell_data", PyRow [("cells", PyBytes Engine.bytes_2x3);
                                   ("ref", PyNone)])])
           (PyStr "int16raw") (PyBytes Engine.bytes_2x3) 3 2 Engine.bound
           (logged [mk_jcall (PyJava 1) "_bytearray_to_list"
                      [PyBytes Engine.bytes_2x3; PyStr "int16raw"; PyInt 3; PyInt 2]]
              Engine.bound)
           Engine.tile_2x3 Engine_astype_keeps_shape);
    [reflexivity | lia | lia | reflexivity].
Defined.

(** X16.  A row whose cell type name carries the marker of a user-defined
    NoData value never becomes a tile, but it is not refused at once: with
    a context bound, [deserialize] first sends the bytes to the gateway,
    and fails afterwards; when the answer can be listed and reshaped, the
    failure is the exception for user-defined NoData. *)
Theorem deserialize_user_defined_nodata `{Numpy} `{JVM}
    (datum cols rows cells : pyval) (s : string)
    (k : nat) (session : SparkSession) (w : world) :
  TileUDT.read_datum "cellType" datum = Return (PyStr s, cols, rows, cells) ->
  py_in "ud" s = true ->
  bound_to k session w ->
  (exists e : exn,
     TileUDT.deserialize datum w =
       (Raise e,
        logged [mk_jcall (PyJava k) "_bytearray_to_list" [cells; PyStr s; cols; rows]] w)) /\
  (forall (raw : pyval) (l : list pyval) (arr reshaped : ndarray) (r c : Z),
     jvm_invoke (mk_jcall (PyJava k) "_bytearray_to_list" [cells; PyStr s; cols; rows])
       = JReturn raw ->
     py_list raw = Return l ->
     np_asarray l = Return arr ->
     TileUDT.py_index rows = Return r ->
     TileUDT.py_index cols = Return c ->
     np_reshape2 arr r c = Return reshaped ->
     TileUDT.deserialize datum w =
       (Raise GTCellType.UnsupportedFeature,
        logged [mk_jcall (PyJava k) "_bytearray_to_list" [cells; PyStr s; cols; rows]] w)).
Proof.
  intros Hread Hud Hbound.
  assert (Hdt : TileUDT.to_numpy_dtype_of (PyStr s) = Raise GTCellType.UnsupportedFeature).
  { cbn. now apply to_numpy_dtype_marker_raises. }
  split.
  - rewrite (@deserialize_after_reads _ _ _ _ _ _ _ w Hread). unfold bind at 1.
    rewrite (RFContext_call_bound _ _ w Hbound eq_refl eq_refl).
    destruct (jvm_invoke _) as [raw|msg]; [|now eexists].
    cbv [Return].
    destruct (py_list raw) as [e|l]; [now eexists|]. rewrite bind_lift_Return.
    destruct (np_asarray l) as [e|arr]; [now eexists|]. rewrite bind_lift_Return.
    destruct (TileUDT.py_index rows) as [e|r]; [now eexists|]. rewrite bind_lift_Return.
    destruct (TileUDT.py_index cols) as [e|c]; [now eexists|]. rewrite bind_lift_Return.
    destruct (np_reshape2 arr r c) as [e|reshaped]; [now eexists|].
    rewrite bind_lift_Return, Hdt. now eexists.
  - intros raw l arr reshaped r c Hraw Hl Harr Hr Hc Hreshape.
    rewrite (@deserialize_after_reads _ _ _ _ _ _ _ w Hread). unfold bind at 1.
    rewrite (RFContext_call_bound _ _ w Hbound eq_refl eq_refl).
    rewrite Hraw. cbv [Return].
    change (inr l) with (Return l) in *.
    rewrite Hl, bind_lift_Return, Harr, bind_lift_Return, Hr, bind_lift_Return,
      Hc, bind_lift_Return, Hreshape, bind_lift_Return, Hdt.
    reflexivity.
Qed.

Lemma deserialize_user_defined_nodata_int16ud5 :
  @TileUDT.deserialize Engine.numpy Engine.jvm
     (tile_row "cellType" "int16ud5" 3 2 Engine.bytes_2x3) Engine.bound =
    (Raise GTCellType.UnsupportedFeature,
     logged [mk_jcall (PyJava 1) "_bytearray_to_list"
               [PyBytes Engine.bytes_2x3; PyStr "int16ud5"; PyInt 3; PyInt 2]]
       Engine.bound).
Proof.
  apply (proj2 (@deserialize_user_defined_nodata Engine.numpy Engine.jvm
                  (tile_row "cellType" "int16ud5" 3 2 Engine.bytes_2x3)
                  (PyInt 3) (PyInt 2) (PyBytes Engine.bytes_2x3) "int16ud5"
                  1 Engine.session Engine.bound eq_refl eq_refl eq_refl)
           (PyList Engine.flat_2x3) Engine.flat_2x3
           (mk_ndarray np_int64 [6] Engine.flat_2x3)
           (mk_ndarray np_int64 [2; 3] Engine.flat_2x3) 2%Z 3%Z);
    reflexivity.
Defined.

(** X17.  When the gateway's answer does not hold rows times cols cells,
    the reshape fails: [deserialize] raises [ValueError] after the call,
    and returns no tile padded or cut to size. *)
Theorem deserialize_size_mismatch `{Numpy} `{JVM}
    (datum name cells raw : pyval) (cols rows : Z) (l : list pyval) (arr : ndarray)
    (k : nat) (session : SparkSession) (w : world) :
  TileUDT.read_datum "cellType" datum = Return (name, PyInt cols, PyInt rows, cells) ->
  bound_to k session w ->
  jvm_invoke (mk_jcall (PyJava k) "_bytearray_to_list"
                [cells; name; PyInt cols; PyInt rows]) = JReturn raw ->
  py_list raw = Return l ->
  np_asarray l = Return arr ->
  (0 <= cols)%Z -> (0 <= rows)%Z ->
  Z.of_nat (length (nd_data arr)) <> (rows * cols)%Z ->
  TileUDT.deserialize datum w =
    (Raise ValueError,
     logged [mk_jcall (PyJava k) "_bytearray_to_list"
               [cells; name; PyInt cols; PyInt rows]] w).
Proof.
  intros Hread Hbound Hraw Hl Harr Hcols Hrows Hsize.
  rewrite (@deserialize_after_reads _ _ _ _ _ _ _ w Hread). unfold bind at 1.
  rewrite (RFContext_call_bound _ _ w Hbound eq_refl eq_refl), Hraw.
  cbv [Return]. change (inr l) with (Return l) in *.
  rewrite Hl, bind_lift_Return, Harr, bind_lift_Return.
  cbn [TileUDT.py_index]. rewrite !bind_lift_Return.
  assert (Hreshape : np_reshape2 arr rows cols = Raise ValueError).
  { unfold np_reshape2.
    assert (H1 : (rows <? 0)%Z = false) by (apply Z.ltb_ge; lia).
    assert (H2 : (cols <? 0)%Z = false) by (apply Z.ltb_ge; lia).
    assert (H5 : (rows * cols =? Z.of_nat (length (nd_data arr)))%Z = false)
      by (apply Z.eqb_neq; lia).
    now rewrite H1, H2, H5. }
  rewrite Hreshape. reflexivity.
Qed.

Lemma deserialize_size_mismatch_one_cell :
  @TileUDT.deserialize Engine.numpy Engine.jvm
     (tile_row "cellType" "int16" 3 2 [x00; x00; x00; x01]) Engine.bound =
    (Raise ValueError,
     logged [mk_jcall (PyJava 1) "_bytearray_to_list"
               [PyBytes [x00; x00; x00; x01]; PyStr "int16"; PyInt 3; PyInt 2]]
       Engine.bound).
Proof.
  apply (@deserialize_size_mismatch Engine.numpy Engine.jvm
           (tile_row "cellType" "int16" 3 2 [x00; x00; x00; x01])
           (PyStr "int16") (PyBytes [x00; x00; x00; x01]) (PyList [PyInt 1])
           3 2 [PyInt 1] (mk_ndarray np_int64 [1] [PyInt 1])
           1 Engine.session Engine.bound);
    try reflexivity; cbn; lia.
Defined.

(** X13.  On a row that names the cell type [cellType], [deserialize]
    undoes [serialize]: if the row carries what the record of a tile
    carries, the gateway's [_bytearray_to_list] turns the bytes of the
    record back into the tile's cells, numpy knows the element type by its
    name and converting the list of cells to that type gives the cells
    back, then [deserialize] returns the tile, buffer and cell type. *)
Theorem deserialize_inverts_serialize `{Numpy} `{JVM}
    (d : dtype) (rows cols : nat) (data : list pyval) (arr : ndarray)
    (record datum : pyval) (cells : list byte)
    (k : nat) (session : SparkSession) (w w1 : world) :
  bound_to k session w ->
  TileUDT.serialize (Tile.__init__ (mk_ndarray d [rows; cols] data)) w
    = (Return record, w1) ->
  record = PyList [PyList [PyList [PyStr (dtype_str d)];
                           PyList [PyInt (Z.of_nat cols); PyInt (Z.of_nat rows)]];
                   PyList [PyBytes cells; PyNone]] ->
  TileUDT.read_datum "cellType" datum =
    Return (PyStr (dtype_str d), PyInt (Z.of_nat cols), PyInt (Z.of_nat rows),
            PyBytes cells) ->
  (forall raw : pyval,
     jvm_invoke (mk_jcall (PyJava k) "_list_to_bytearray"
                   [PyList data; PyInt (Z.of_nat cols); PyInt (Z.of_nat rows)])
       = JReturn raw ->
     py_bytes raw = Return cells ->
     jvm_invoke (mk_jcall (PyJava k) "_bytearray_to_list"
                   [PyBytes cells; PyStr (dtype_str d);
                    PyInt (Z.of_nat cols); PyInt (Z.of_nat rows)])
       = JReturn (PyList data)) ->
  dtype_names_resolve ->
  np_asarray data = Return arr ->
  length (nd_data arr) = rows * cols ->
  np_astype (mk_ndarray (nd_dtype arr) [rows; cols] (nd_data arr)) d
    = Return (mk_ndarray d [rows; cols] data) ->
  TileUDT.deserialize datum w1 =
    (Return (Tile.__init__ (mk_ndarray d [rows; cols] data)),
     logged [mk_jcall (PyJava k) "_bytearray_to_list"
               [PyBytes cells; PyStr (dtype_str d);
                PyInt (Z.of_nat cols); PyInt (Z.of_nat rows)]] w1).
Proof.
  intros Hbound Hser Hrecord Hread Hinverse Hnames Harr Hsize Hcast.
  destruct (serialize_inv _ _ Hser)
    as (cols' & rows' & raw & cells' & Hdims & Hcall & Hbytes & Hrecord').
  rewrite Hrecord in Hrecord'. injection Hrecord' as Hc Hr <-.
  apply Nat2Z.inj in Hc. apply Nat2Z.inj in Hr. subst cols' rows'.
  cbn [Tile.cells Tile.__init__ flatten_tolist nd_data] in Hcall.
  assert (Hbound1 : bound_to k session w1).
  { destruct (RFContext_call_once _ _ _ Hcall) as [Hsame _].
    unfold bound_to in *. now rewrite Hsame. }
  assert (Hdec : jvm_invoke (mk_jcall (PyJava k) "_bytearray_to_list"
                   [PyBytes cells; PyStr (dtype_str d);
                    PyInt (Z.of_nat cols); PyInt (Z.of_nat rows)])
                 = JReturn (PyList data)).
  { apply (Hinverse raw); [|exact Hbytes].
    rewrite (RFContext_call_bound _ _ w Hbound eq_refl eq_refl) in Hcall.
    destruct (jvm_invoke _) as [v|msg]; [|discriminate Hcall].
    now injection Hcall as ->. }
  rewrite (@deserialize_after_reads _ _ _ _ _ _ _ w1 Hread). unfold bind at 1.
  rewrite (RFContext_call_bound _ _ w1 Hbound1 eq_refl eq_refl), Hdec.
  cbv [Return]. cbn [py_list]. change (inr data) with (Return data).
  rewrite bind_lift_Return, Harr, bind_lift_Return.
  cbn [TileUDT.py_index]. rewrite !bind_lift_Return.
  rewrite (np_reshape2_exact _ _ _ Hsize), bind_lift_Return.
  cbn [TileUDT.to_numpy_dtype_of].
  change (GTCellType.__init__ (dtype_str d)) with (GTCellType.from_numpy_dtype d).
  rewrite to_numpy_dtype_canonical, Hnames, bind_lift_Return.
  rewrite Hcast, bind_lift_Return. reflexivity.
Qed.

Lemma deserialize_inverts_serialize_2x3 :
  @TileUDT.deserialize Engine.numpy Engine.jvm
     (tile_row "cellType" "int16" 3 2 Engine.bytes_2x3)
     (logged [mk_jcall (PyJava 1) "_list_to_bytearray"
                [PyList Engine.flat_2x3; PyInt 3; PyInt 2]] Engine.bound)
  = (Return Engine.tile_2x3,
     logged [mk_jcall (PyJava 1) "_bytearray_to_list"
               [PyBytes Engine.bytes_2x3; PyStr "int16"; PyInt 3; PyInt 2]]
       (logged [mk_jcall (PyJava 1) "_list_to_bytearray"
                  [PyList Engine.flat_2x3; PyInt 3; PyInt 2]] Engine.bound)).
Proof.
  apply (@deserialize_inverts_serialize Engine.numpy Engine.jvm
           np_int16 2 3 Engine.flat_2x3 (mk_ndarray np_int64 [6] Engine.flat_2x3)
           (PyList [PyList [PyList [PyStr "int16"]; PyList [PyInt 3; PyInt 2]];
                    PyList [PyBytes Engine.bytes_2x3; PyNone]])
           (tile_row "cellType" "int16" 3 2 Engine.bytes_2x3)
           Engine.bytes_2x3 1 Engine.session Engine.bound);
    try reflexivity.
  exact Engine_dtype_names_resolve.
Defined.

(** ** The frame facade *)

Lemma active_rf_context_bound (k : nat) (session : SparkSession) (w : world) :
  bound_to k session w ->
  active_rf_context w = (Return (RFContext.mk (PyJava k) session), w).
Proof. unfold bound_to, active_rf_context. now intros ->. Qed.

(** One of the five accessors that go through the active context, in a
    process where one is bound: the call, then the new frame. *)
Lemma context_accessor_bound `{JVM} `{Builtins}
    (a : RasterFrame.accessor) (self : RasterFrame.t)
    (k : nat) (session : SparkSession) (w : world) :
  RasterFrame.reads_active_context a = true ->
  bound_to k session w ->
  RasterFrame.invoke a self w =
    (match jvm_invoke (mk_jcall (PyJava k) (RasterFrame.method_of a)
                         (RasterFrame._jdf self :: RasterFrame.args_of a)) with
     | JReturn df =>
         match RasterFrame.__init__ df session with
         | inl e => Raise e
         | inr f => Return (RasterFrame.Frame f)
         end
     | JRaise msg => Raise (RemoteCallError msg)
     end,
     logged [mk_jcall (PyJava k) (RasterFrame.method_of a)
               (RasterFrame._jdf self :: RasterFrame.args_of a)] w).
Proof.
  intros Hreads Hbound.
  destruct a; try discriminate Hreads;
    cbn [RasterFrame.invoke RasterFrame.method_of RasterFrame.args_of];
    unfold RasterFrame.spatialJoin, RasterFrame.withBounds, RasterFrame.withCenter,
      RasterFrame.withCenterLatLng, RasterFrame.withSpatialIndex;
    (erewrite bind_Return by (apply active_rf_context_bound; exact Hbound));
    cbn [RFContext._jrfctx RFContext._spark_session];
    unfold bind at 1; rewrite py4j_call_java;
    destruct (jvm_invoke _) as [df|msg]; try reflexivity;
    cbv [Return]; unfold bind, lift, ret;
    destruct (RasterFrame.__init__ df session); reflexivity.
Qed.

(** X18.  In a process with a bound context, [spatialJoin], [withBounds],
    [withCenter], [withCenterLatLng] and [withSpatialIndex] send one call
    to the engine context of the process, not to the one the frame holds,
    and wrap the answer as a frame on the session's SQL context and the
    session's engine context. *)
Theorem context_accessors_make_frames `{JVM} `{Builtins}
    (a : RasterFrame.accessor) (self : RasterFrame.t) (df jrfctx : pyval)
    (k : nat) (session : SparkSession) (w : world) :
  RasterFrame.reads_active_context a = true ->
  bound_to k session w ->
  rasterframes_jrfctx session = Some jrfctx ->
  jvm_invoke (mk_jcall (PyJava k) (RasterFrame.method_of a)
                (RasterFrame._jdf self :: RasterFrame.args_of a)) = JReturn df ->
  RasterFrame.invoke a self w =
    (Return (RasterFrame.Frame (RasterFrame.mk df (_wrapped session) jrfctx)),
     logged [mk_jcall (PyJava k) (RasterFrame.method_of a)
               (RasterFrame._jdf self :: RasterFrame.args_of a)] w).
Proof.
  intros Hreads Hbound Hsession Hdf.
  rewrite (context_accessor_bound a self Hreads Hbound), Hdf.
  unfold RasterFrame.__init__. now rewrite Hsession.
Qed.

Lemma context_accessors_make_frames_withCenter :
  @RasterFrame.invoke (const_jvm (PyJava 42)) Engine.builtins
     RasterFrame.WithCenter (RasterFrame.mk (PyJava 10) (PyJava 2) (PyJava 99))
     Engine.bound =
    (Return (RasterFrame.Frame (RasterFrame.mk (PyJava 42) (PyJava 2) (PyJava 1))),
     logged [mk_jcall (PyJava 1) "withCenter" [PyJava 10]] Engine.bound).
Proof.
  apply (@context_accessors_make_frames (const_jvm (PyJava 42)) Engine.builtins
           RasterFrame.WithCenter (RasterFrame.mk (PyJava 10) (PyJava 2) (PyJava 99))
           (PyJava 42) (PyJava 1) 1 Engine.session Engine.bound);
    reflexivity.
Defined.

(** X19.  When the session of the bound context was not set up for
    RasterFrames, those five accessors fail only after the engine did the
    work: the call is sent, and wrapping the answer raises
    [AttributeError]. *)
Theorem context_accessors_fail_after_call `{JVM} `{Builtins}
    (a : RasterFrame.accessor) (self : RasterFrame.t) (df : pyval)
    (k : nat) (session : SparkSession) (w : world) :
  RasterFrame.reads_active_context a = true ->
  bound_to k session w ->
  rasterframes_jrfctx session = None ->
  jvm_invoke (mk_jcall (PyJava k) (RasterFrame.method_of a)
                (RasterFrame._jdf self :: RasterFrame.args_of a)) = JReturn df ->
  RasterFrame.invoke a self w =
    (Raise (AttributeError "rasterframes"),
     logged [mk_jcall (PyJava k) (RasterFrame.method_of a)
               (RasterFrame._jdf self :: RasterFrame.args_of a)] w).
Proof.
  intros Hreads Hbound Hsession Hdf.
  rewrite (context_accessor_bound a self Hreads Hbound), Hdf.
  unfold RasterFrame.__init__. now rewrite Hsession.
Qed.

Lemma context_accessors_fail_after_call_withBounds :
  @RasterFrame.invoke null_jvm Engine.builtins RasterFrame.WithBounds Engine.frame
     (mk_world
        (Some (mk_SparkContext
                 (Some (RFContext.mk (PyJava 1) (mk_SparkSession (PyJava 2) None)))))
        []) =
    (Raise (AttributeError "rasterframes"),
     logged [mk_jcall (PyJava 1) "withBounds" [PyJava 10]]
       (mk_world
          (Some (mk_SparkContext
                   (Some (RFContext.mk (PyJava 1) (mk_SparkSession (PyJava 2) None)))))
          [])).
Proof.
  apply (@context_accessors_fail_after_call null_jvm Engine.builtins
           RasterFrame.WithBounds Engine.frame PyNone 1
           (mk_SparkSession (PyJava 2) None));
    reflexivity.
Defined.

(** X20.  A failure of the engine reaches the caller of any accessor as it
    is, after exactly one call: for the six accessors that use the frame's
    context on a frame that holds one, and for the five others in a
    process with a bound context. *)
Theorem accessors_propagate_engine_failure `{JVM} `{Builtins}
    (a : RasterFrame.accessor) (self : RasterFrame.t) (msg : string)
    (k : nat) (session : SparkSession) (w : world) :
  (if RasterFrame.reads_active_context a
   then bound_to k session w
   else RasterFrame._jrfctx self = PyJava k) ->
  jvm_invoke (mk_jcall (PyJava k) (RasterFrame.method_of a)
                (RasterFrame._jdf self :: RasterFrame.args_of a)) = JRaise msg ->
  RasterFrame.invoke a self w =
    (Raise (RemoteCallError msg),
     logged [mk_jcall (PyJava k) (RasterFrame.method_of a)
               (RasterFrame._jdf self :: RasterFrame.args_of a)] w).
Proof.
  intros Htarget Hmsg.
  destruct (RasterFrame.reads_active_context a) eqn:Hreads.
  - now rewrite (context_accessor_bound a self Hreads Htarget), Hmsg.
  - destruct a; try discriminate Hreads;
      cbn [RasterFrame.invoke RasterFrame.method_of RasterFrame.args_of] in *;
      unfold RasterFrame.tileColumns, RasterFrame.spatialKeyColumn,
        RasterFrame.temporalKeyColumn, RasterFrame.tileLayerMetadata,
        RasterFrame.toIntRaster, RasterFrame.toDoubleRaster;
      rewrite Htarget; unfold bind at 1; rewrite py4j_call_java, Hmsg;
      reflexivity.
Qed.

Lemma accessors_propagate_engine_failure_unreachable :
  @RasterFrame.invoke Engine.unreachable_jvm Engine.builtins
     (RasterFrame.ToIntRaster (PyStr "tile") (PyInt 3) (PyInt 2)) Engine.frame
     Engine.unbound =
    (Raise (RemoteCallError "py4j.protocol.Py4JNetworkError"),
     logged [mk_jcall (PyJava 1) "toIntRaster"
               [PyJava 10; PyStr "tile"; PyInt 3; PyInt 2]] Engine.unbound) /\
  @RasterFrame.invoke Engine.unreachable_jvm Engine.builtins
     (RasterFrame.SpatialJoin Engine.frame0) Engine.frame Engine.bound =
    (Raise (RemoteCallError "py4j.protocol.Py4JNetworkError"),
     logged [mk_jcall (PyJava 1) "spatialJoin" [PyJava 10; PyJava 0]] Engine.bound).
Proof.
  split.
  - apply (@accessors_propagate_engine_failure Engine.unreachable_jvm Engine.builtins
             (RasterFrame.ToIntRaster (PyStr "tile") (PyInt 3) (PyInt 2))
             Engine.frame _ 1 Engine.session Engine.unbound); reflexivity.
  - apply (@accessors_propagate_engine_failure Engine.unreachable_jvm Engine.builtins
             (RasterFrame.SpatialJoin Engine.frame0)
             Engine.frame _ 1 Engine.session Engine.bound); reflexivity.
Defined.

(** X21.  [tileColumns] wraps each element of the engine's answer as a
    Column, in order and as many as there are; when the answer cannot be
    iterated, as [None] cannot, it raises [TypeError] after the call
    rather than return an empty list. *)
Theorem tileColumns_wraps_each `{JVM} `{Builtins}
    (self : RasterFrame.t) (k : nat) (w : world) :
  RasterFrame._jrfctx self = PyJava k ->
  (forall cols : list pyval,
     jvm_invoke (mk_jcall (PyJava k) "tileColumns" [RasterFrame._jdf self])
       = JReturn (PyList cols) ->
     RasterFrame.tileColumns self w =
       (Return (RasterFrame.Value (PyList (map PyColumn cols))),
        logged [mk_jcall (PyJava k) "tileColumns" [RasterFrame._jdf self]] w) /\
     length (map PyColumn cols) = length cols) /\
  (forall answer : pyval,
     jvm_invoke (mk_jcall (PyJava k) "tileColumns" [RasterFrame._jdf self])
       = JReturn answer ->
     answer = PyNone \/ (exists ref, answer = PyJava ref) ->
     RasterFrame.tileColumns self w =
       (Raise TypeError,
        logged [mk_jcall (PyJava k) "tileColumns" [RasterFrame._jdf self]] w)).
Proof.
  intros Hk. unfold RasterFrame.tileColumns. rewrite Hk. split.
  - intros cols Hcols. split; [|apply List.length_map].
    unfold bind at 1. rewrite py4j_call_java, Hcols. reflexivity.
  - intros answer Hanswer Hkind.
    unfold bind at 1. rewrite py4j_call_java, Hanswer.
    destruct Hkind as [-> | [ref ->]]; reflexivity.
Qed.

Lemma tileColumns_wraps_each_examples :
  @RasterFrame.tileColumns Engine.jvm Engine.frame Engine.bound =
    (Return (RasterFrame.Value (PyList [PyColumn (PyJava 7)])),
     logged [mk_jcall (PyJava 1) "tileColumns" [PyJava 10]] Engine.bound) /\
  @RasterFrame.tileColumns null_jvm Engine.frame Engine.bound =
    (Raise TypeError,
     logged [mk_jcall (PyJava 1) "tileColumns" [PyJava 10]] Engine.bound).
Proof.
  split.
  - apply (proj1 (@tileColumns_wraps_each Engine.jvm Engine.builtins
                    Engine.frame 1 Engine.bound eq_refl) [PyJava 7]).
    reflexivity.
  - apply (proj2 (@tileColumns_wraps_each null_jvm Engine.builtins
                    Engine.frame 1 Engine.bound eq_refl) PyNone);
      [reflexivity | now left].
Defined.

(** X22.  [spatialKeyColumn] never returns [None]: whatever the engine
    answers, [None] included, comes back wrapped as a Column, where
    [temporalKeyColumn] hands a [None] through. *)
Theorem spatialKeyColumn_always_wraps `{JVM} `{Builtins}
    (self : RasterFrame.t) (w : world) :
  (forall (out : RasterFrame.outcome) (w' : world),
     RasterFrame.spatialKeyColumn self w = (Return out, w') ->
     exists col : pyval, out = RasterFrame.Value (PyColumn col)) /\
  (forall k : nat,
     RasterFrame._jrfctx self = PyJava k ->
     jvm_invoke (mk_jcall (PyJava k) "spatialKeyColumn" [RasterFrame._jdf self])
       = JReturn PyNone ->
     RasterFrame.spatialKeyColumn self w =
       (Return (RasterFrame.Value (PyColumn PyNone)),
        logged [mk_jcall (PyJava k) "spatialKeyColumn" [RasterFrame._jdf self]] w)).
Proof.
  unfold RasterFrame.spatialKeyColumn. split.
  - intros out w'. unfold bind.
    destruct (py4j_call _ _ _ w) as [[e|col] w1]; [discriminate|].
    intros [= <- <-]. now exists col.
  - intros k Hk Hnone. rewrite Hk. unfold bind.
    now rewrite py4j_call_java, Hnone.
Qed.

Lemma spatialKeyColumn_always_wraps_null :
  @RasterFrame.spatialKeyColumn null_jvm Engine.frame Engine.bound =
    (Return (RasterFrame.Value (PyColumn PyNone)),
     logged [mk_jcall (PyJava 1) "spatialKeyColumn" [PyJava 10]] Engine.bound).
Proof.
  apply (proj2 (@spatialKeyColumn_always_wraps null_jvm Engine.builtins
                  Engine.frame Engine.bound) 1); reflexivity.
Defined.

(** X23.  [temporalKeyColumn] returns a Column exactly when the engine's
    answer is truthy; a falsy answer, be it [None], an empty list, zero or
    an empty string, is returned as it is. *)
Theorem temporalKeyColumn_falsy_unwrapped `{JVM} `{Builtins}
    (self : RasterFrame.t) (k : nat) (answer : pyval) (w : world) :
  RasterFrame._jrfctx self = PyJava k ->
  jvm_invoke (mk_jcall (PyJava k) "temporalKeyColumn" [RasterFrame._jdf self])
    = JReturn answer ->
  RasterFrame.temporalKeyColumn self w =
    (Return (RasterFrame.Value (if truthy answer then PyColumn answer else answer)),
     logged [mk_jcall (PyJava k) "temporalKeyColumn" [RasterFrame._jdf self]] w).
Proof.
  intros Hk Hanswer. unfold RasterFrame.temporalKeyColumn. rewrite Hk.
  unfold bind. now rewrite py4j_call_java, Hanswer.
Qed.

Lemma temporalKeyColumn_falsy_unwrapped_empty_list :
  @RasterFrame.temporalKeyColumn (const_jvm (PyList [])) Engine.frame Engine.bound =
    (Return (RasterFrame.Value (PyList [])),
     logged [mk_jcall (PyJava 1) "temporalKeyColumn" [PyJava 10]] Engine.bound).
Proof.
  apply (@temporalKeyColumn_falsy_unwrapped (const_jvm (PyList [])) Engine.builtins
           Engine.frame 1 (PyList []) Engine.bound); reflexivity.
Defined.

(** X24.  Frames made by the accessors keep working through the session's
    engine context: after [withBounds] in a bound process, [tileColumns]
    of the new frame sends its call to the session's context with the
    handle the engine answered, so the log holds the two calls in order. *)
Theorem withBounds_then_tileColumns `{JVM} `{Builtins}
    (self : RasterFrame.t) (df : pyval) (j k : nat)
    (session : SparkSession) (w : world) :
  bound_to k session w ->
  rasterframes_jrfctx session = Some (PyJava j) ->
  jvm_invoke (mk_jcall (PyJava k) "withBounds" [RasterFrame._jdf self]) = JReturn df ->
  snd ((out <- RasterFrame.withBounds self ;;
        match out with
        | RasterFrame.Frame f => RasterFrame.tileColumns f
        | RasterFrame.Value v => ret out
        end)%py w) =
    logged [mk_jcall (PyJava j) "tileColumns" [df]]
      (logged [mk_jcall (PyJava k) "withBounds" [RasterFrame._jdf self]] w).
Proof.
  intros Hbound Hsession Hdf.
  assert (Hframe :
    RasterFrame.withBounds self w =
      (Return (RasterFrame.Frame (RasterFrame.mk df (_wrapped session) (PyJava j))),
       logged [mk_jcall (PyJava k) "withBounds" [RasterFrame._jdf self]] w)).
  { change (RasterFrame.withBounds self) with (RasterFrame.invoke RasterFrame.WithBounds self).
    rewrite (context_accessor_bound RasterFrame.WithBounds self eq_refl Hbound).
    cbn [RasterFrame.method_of RasterFrame.args_of]. rewrite Hdf.
    unfold RasterFrame.__init__. now rewrite Hsession. }
  erewrite bind_Return by exact Hframe.
  unfold RasterFrame.tileColumns. cbn [RasterFrame._jrfctx RasterFrame._jdf].
  unfold bind at 1. rewrite py4j_call_java.
  destruct (jvm_invoke (mk_jcall (PyJava j) "tileColumns" [df])) as [cols|msg];
    [|reflexivity].
  cbv [Return bind lift ret]. destruct (py_list cols); reflexivity.
Qed.

Lemma withBounds_then_tileColumns_const :
  snd ((out <- @RasterFrame.withBounds (const_jvm (PyJava 42)) Engine.frame ;;
        match out with
        | RasterFrame.Frame f => @RasterFrame.tileColumns (const_jvm (PyJava 42)) f
        | RasterFrame.Value v => ret out
        end)%py Engine.bound) =
    logged [mk_jcall (PyJava 1) "tileColumns" [PyJava 42]]
      (logged [mk_jcall (PyJava 1) "withBounds" [PyJava 10]] Engine.bound).
Proof.
  apply (@withBounds_then_tileColumns (const_jvm (PyJava 42)) Engine.builtins
           Engine.frame (PyJava 42) 1 1 Engine.session Engine.bound); reflexivity.
Defined.

(** ** The remote-source codec inside the tile schema *)

Lemma RasterSourceUDT_deserialize_None (datum x : pyval) :
  RasterSourceUDT.deserialize datum = Return x -> x = PyNone.
Proof.
  unfold RasterSourceUDT.deserialize.
  destruct (py_getitem datum 0) as [e|y]; cbn; [discriminate|].
  destruct (py_bytes y) as [e|b]; cbn; [discriminate|].
  now intros [= <-].
Qed.

(** X25.  A remote source does not come through the schema: whatever is
    stored in a field of type [RasterSourceUDT], Spark's conversion hands
    Python [None] for it, or fails.  So the row of a tile held by
    reference has its band index, but [None] where its source was. *)
Theorem RasterSourceUDT_field_is_lost :
  (forall stored x : pyval,
     fromInternal RasterSourceUDT.as_type stored = Return x -> x = PyNone) /\
  (forall (kryo : list byte) (band : Z) (name : string) (cols rows : Z),
     (row <- fromInternal TileUDT.sqlType
               (PyList [PyList [PyList [PyStr name]; PyList [PyInt cols; PyInt rows]];
                        PyList [PyNone;
                                PyList [PyList [PyBytes kryo]; PyInt band; PyNone]]]) ;;
      cell_data <- py_getattr row "cell_data" ;;
      ref <- py_getattr cell_data "ref" ;;
      source <- py_getattr ref "source" ;;
      bandIndex <- py_getattr ref "bandIndex" ;;
      Return (source, bandIndex))%res = Return (PyNone, PyInt band)).
Proof.
  split.
  - intros stored x. cbn [fromInternal RasterSourceUDT.as_type].
    destruct (fromInternal RasterSourceUDT.sqlType stored) as [e|v]; cbn [rbind];
      [discriminate|].
    destruct v; try apply RasterSourceUDT_deserialize_None.
    now intros [= <-].
  - reflexivity.
Qed.

Lemma RasterSourceUDT_field_is_lost_bytes :
  fromInternal RasterSourceUDT.as_type (PyList [PyBytes [x01; x02]]) = Return PyNone /\
  PyNone = PyNone.
Proof.
  split; [reflexivity|].
  apply (proj1 RasterSourceUDT_field_is_lost (PyList [PyBytes [x01; x02]]) PyNone).
  reflexivity.
Defined.

(** ** NoDataFilter *)

(** X26.  [setInputCols] forwards the columns to the Java object in one
    call and returns [None], whatever the Java setter answered, so calls
    on a [NoDataFilter] cannot be chained; a failure of the engine
    reaches the caller as it is. *)
Theorem setInputCols_returns_None `{JVM}
    (self : NoDataFilter.t) (values : pyval) (k : nat) (w : world) :
  NoDataFilter._java_obj self = PyJava k ->
  (forall answer : pyval,
     jvm_invoke (mk_jcall (PyJava k) "setInputCols" [values]) = JReturn answer ->
     NoDataFilter.setInputCols self values w =
       (Return PyNone, logged [mk_jcall (PyJava k) "setInputCols" [values]] w)) /\
  (forall msg : string,
     jvm_invoke (mk_jcall (PyJava k) "setInputCols" [values]) = JRaise msg ->
     NoDataFilter.setInputCols self values w =
       (Raise (RemoteCallError msg),
        logged [mk_jcall (PyJava k) "setInputCols" [values]] w)) /\
  (forall (out : pyval) (w' : world),
     NoDataFilter.setInputCols self values w = (Return out, w') ->
     out = PyNone /\ py_getattr out "transform" = Raise (AttributeError "transform")).
Proof.
  intros Hk. unfold NoDataFilter.setInputCols. rewrite Hk.
  unfold bind. rewrite py4j_call_java. split; [|split].
  - now intros answer ->.
  - now intros msg ->.
  - intros out w'. destruct (jvm_invoke _); [|discriminate].
    intros [= <- <-]. now split.
Qed.

Lemma setInputCols_returns_None_engines :
  @NoDataFilter.setInputCols (const_jvm (PyJava 5))
     (NoDataFilter.mk "NoDataFilter_4f2a" (PyJava 5))
     (PyList [PyStr "tile"]) Engine.bound =
    (Return PyNone,
     logged [mk_jcall (PyJava 5) "setInputCols" [PyList [PyStr "tile"]]] Engine.bound) /\
  @NoDataFilter.setInputCols Engine.unreachable_jvm
     (NoDataFilter.mk "NoDataFilter_4f2a" (PyJava 5))
     (PyList [PyStr "tile"]) Engine.bound =
    (Raise (RemoteCallError "py4j.protocol.Py4JNetworkError"),
     logged [mk_jcall (PyJava 5) "setInputCols" [PyList [PyStr "tile"]]] Engine.bound).
Proof.
  split.
  - apply (proj1 (@setInputCols_returns_None (const_jvm (PyJava 5))
                    (NoDataFilter.mk "NoDataFilter_4f2a" (PyJava 5))
                    (PyList [PyStr "tile"]) 5 Engine.bound eq_refl) (PyJava 5)).
    reflexivity.
  - apply (proj1 (proj2 (@setInputCols_returns_None Engine.unreachable_jvm
                    (NoDataFilter.mk "NoDataFilter_4f2a" (PyJava 5))
                    (PyList [PyStr "tile"]) 5 Engine.bound eq_refl))
             "py4j.protocol.Py4JNetworkError").
    reflexivity.
Defined.
